(** * YouTube ad-revenue predictor: feature normalisation, verified

    A shallow embedding of the helper functions and of the two Streamlit
    scripts of the repository ([yt_streamlit1.py], [yt_streamlit.py]):
    identifier extraction, duration normalisation, the engagement-rate
    calculator, the remote statistics lookup, category translation and the
    manual / link workflows over the session state.

    Conventions.
    - A Python [int] is a [Z]; a Python [float] is carried as the exact
      rational [Q] it approximates (true division and [total_seconds] are
      the exact quotients); a quotient too large for a float raises
      [OverflowError], as [int / int] does.
    - A Python [str] is a [string]; a [dict] with string keys is a
      [gmap string _].
    - Code that may raise runs in the [result] monad; [try/except] is a
      match on the result. *)

From Stdlib Require Import ZArith QArith Qround String Ascii List Lia Lqa.
From stdpp Require Import base option gmap strings list fin_maps.

Local Open Scope string_scope.
Local Open Scope Z_scope.

(** ** Python values, exceptions and the error monad *)

Module Py.

#[warning="-register-all"]
Inductive pyval : Type :=
| PyNone
| PyBool (b : bool)
| PyInt (z : Z)
| PyFloat (q : Q)
| PyStr (s : string)
| PyList (l : list pyval)
| PyDict (d : gmap string pyval).

(** The exceptions the scripts can meet; all derive from [Exception]. *)
Inductive exn : Type :=
| KeyError (k : string)
| IndexError
| TypeError
| ValueError
| AttributeError
| ZeroDivisionError
| OverflowError
| ISO8601Error
| HttpError (msg : string).

Inductive result (A : Type) : Type :=
| Ok (a : A)
| Raise (e : exn).
Arguments Ok {A} a.
Arguments Raise {A} e.

#[global] Instance result_ret : MRet result := fun A a => Ok a.
#[global] Instance result_bind : MBind result := fun A B k m =>
  match m with
  | Ok a => k a
  | Raise e => Raise e
  end.

(** Truth value testing ([if x:], [not x]). *)
Definition truthy (v : pyval) : bool :=
  match v with
  | PyNone => false
  | PyBool b => b
  | PyInt z => negb (z =? 0)
  | PyFloat q => negb (Qnum q =? 0)
  | PyStr s => negb (String.eqb s "")
  | PyList l => match l with [] => false | _ => true end
  | PyDict d => negb (bool_decide (d = ∅))
  end.

(** [d.get(k, default)]: only a dict has the method. *)
Definition get (d : pyval) (k : string) (default : pyval) : result pyval :=
  match d with
  | PyDict m => Ok (match m !! k with Some v => v | None => default end)
  | _ => Raise AttributeError
  end.

(** [d[k]] with a string key. *)
Definition getitem (d : pyval) (k : string) : result pyval :=
  match d with
  | PyDict m => match m !! k with Some v => Ok v | None => Raise (KeyError k) end
  | _ => Raise TypeError
  end.

(** [x[0]]. *)
Definition item0 (x : pyval) : result pyval :=
  match x with
  | PyList l => match l with v :: _ => Ok v | [] => Raise IndexError end
  | PyStr s => match s with
               | String c _ => Ok (PyStr (String c EmptyString))
               | EmptyString => Raise IndexError
               end
  | PyDict _ => Raise (KeyError "0")
  | _ => Raise TypeError
  end.

(** Truncation towards zero, as [int(float)] does. *)
Definition Qtrunc (q : Q) : Z := Z.quot (Qnum q) (Z.pos (Qden q)).

Section Builtins.
(** [int(s)] on a [str] is the interpreter's; it is a parameter of the
    development ([None]: [ValueError]).  [Demo.int_of_decimal] below is
    the instance used on concrete inputs. *)
Variable int_of_str : string -> option Z.

Definition int (v : pyval) : result Z :=
  match v with
  | PyInt z => Ok z
  | PyBool b => Ok (if b then 1 else 0)
  | PyFloat q => Ok (Qtrunc q)
  | PyStr s => match int_of_str s with Some z => Ok z | None => Raise ValueError end
  | _ => Raise TypeError
  end.
End Builtins.

(** The magnitudes from [float_limit] on round to a value beyond the
    largest float: [2 ^ 1024 - 2 ^ 970] is half-way between that float and
    [2 ^ 1024], and the tie goes up. *)
Definition float_limit : Z := 2 ^ 1024 - 2 ^ 970.

(** The quotient [a / b] is too large for a float. *)
Definition float_overflow (a b : Z) : bool :=
  float_limit * Z.abs b <=? Z.abs a.

(** [a / b] on two [int]s: [ZeroDivisionError] on a zero divisor,
    [OverflowError] ("integer division result too large for a float") on
    a quotient outside the float range. *)
Definition truediv (a b : Z) : result Q :=
  if b =? 0 then Raise ZeroDivisionError
  else if float_overflow a b then Raise OverflowError
  else Ok (Qred (inject_Z a / inject_Z b)).

End Py.
Import Py.

(** ** Regular expressions: the fragment of [re] the scripts use

    A backtracking matcher in continuation-passing style, with Python's
    priorities: alternatives left to right, greedy repetition, and
    [search] trying the start positions from left to right.  One capturing
    group is tracked (group 1). *)

Module Re.

Inductive regex : Type :=
| Lit (c : ascii)                      (* a literal character *)
| Class (ranges : list (ascii * ascii)) (* [a-bc-d...] *)
| Dot                                   (* . : anything but a newline *)
| Seq (r1 r2 : regex)
| Alt (r1 r2 : regex)
| Rep (n : nat) (r : regex)             (* r{n} *)
| Star (r : regex)                      (* r*, greedy *)
| Group (r : regex).                    (* ( r ), group 1 *)

Definition in_range (c : ascii) (rg : ascii * ascii) : bool :=
  (N_of_ascii (fst rg) <=? N_of_ascii c)%N && (N_of_ascii c <=? N_of_ascii (snd rg))%N.

Definition in_class (ranges : list (ascii * ascii)) (c : ascii) : bool :=
  existsb (in_range c) ranges.

Definition newline : ascii := "010"%char.

(** The text between position [s] and the later position [s']. *)
Definition consumed (s s' : string) : string :=
  substring 0 (String.length s - String.length s') s.

Section Matcher.
Context {A : Type}.

(** A matcher for one regex: input, group 1 so far, continuation. *)
Definition matcher : Type :=
  string -> option string -> (string -> option string -> option A) -> option A.

(** [r{n}] *)
Fixpoint rep_loop (step : matcher) (k : string -> option string -> option A)
         (n : nat) (s : string) (g : option string) : option A :=
  match n with
  | O => k s g
  | S n' => step s g (fun s' g' => rep_loop step k n' s' g')
  end.

(** [r*]: as many rounds as possible, each consuming input. *)
Fixpoint star_loop (step : matcher) (k : string -> option string -> option A)
         (fuel : nat) (s : string) (g : option string) : option A :=
  match fuel with
  | O => k s g
  | S fuel' =>
      match step s g (fun s' g' =>
               if (String.length s' <? String.length s)%nat
               then star_loop step k fuel' s' g' else None) with
      | Some a => Some a
      | None => k s g
      end
  end.

Fixpoint m (r : regex) (s : string) (g : option string)
         (k : string -> option string -> option A) {struct r} : option A :=
  match r with
  | Lit c =>
      match s with
      | String c' s' => if Ascii.eqb c c' then k s' g else None
      | EmptyString => None
      end
  | Class ranges =>
      match s with
      | String c' s' => if in_class ranges c' then k s' g else None
      | EmptyString => None
      end
  | Dot =>
      match s with
      | String c' s' => if Ascii.eqb c' newline then None else k s' g
      | EmptyString => None
      end
  | Seq r1 r2 => m r1 s g (fun s' g' => m r2 s' g' k)
  | Alt r1 r2 =>
      match m r1 s g k with
      | Some a => Some a
      | None => m r2 s g k
      end
  | Rep n r1 => rep_loop (m r1) k n s g
  | Star r1 => star_loop (m r1) k (S (String.length s)) s g
  | Group r1 => m r1 s g (fun s' _ => k s' (Some (consumed s s')))
  end.
End Matcher.

(** [re.match(r, s)]: [None] when there is no match at the start of [s],
    otherwise group 1 of the match ([None]: the group took no part). *)
Definition match_here (r : regex) (s : string) : option (option string) :=
  m r s None (fun _ g => Some g).

(** [re.search(r, s)]: the match at the leftmost position that has one. *)
Fixpoint search (r : regex) (s : string) : option (option string) :=
  match match_here r s with
  | Some g => Some g
  | None =>
      match s with
      | String _ s' => search r s'
      | EmptyString => None
      end
  end.

End Re.
Import Re.

(** ** [extract_video_id] *)

(** [[0-9A-Za-z_-]] *)
Definition id_class : list (ascii * ascii) :=
  [("0", "9"); ("A", "Z"); ("a", "z"); ("_", "_"); ("-", "-")]%char.

(** [(?:v=|\/)([0-9A-Za-z_-]{11}).*] *)
Definition video_id_regex : regex :=
  Seq (Alt (Seq (Lit "v") (Lit "=")) (Lit "/"))
      (Seq (Group (Rep 11 (Class id_class))) (Star Dot)).

Definition extract_video_id (url : string) : option string :=
  match search video_id_regex url with
  | Some g => g
  | None => None
  end.

(** ** The [isodate] library: durations

    [isodate.parse_duration] is a dependency, not part of the repository.
    The repository's code is parametric in it (see [env]); this module is
    the model used on concrete inputs.  It follows the library's duration
    pattern

      [^(sign)?P(?!\b)(nY)?(nM)?(nW)?(nD)?(T(nH)?(nM)?(nS)?)?$]

    with [n = [0-9]+([,.][0-9]+)?], the fall-back to the alternative
    [P<date>T<time>] format, and [datetime.timedelta]: a whole number of
    microseconds whose day count stays within +-999999999. *)

Module Isodate.

Record timedelta : Type := Timedelta { td_us : Z }.

Definition us_per_day : Z := 86400 * 1000000.
Definition max_days : Z := 999999999.

(** Normalisation check of the [timedelta] constructor and arithmetic. *)
Definition timedelta_of_us (us : Z) : result timedelta :=
  let days := us / us_per_day in
  if (- max_days <=? days) && (days <=? max_days)
  then Ok (Timedelta us) else Raise OverflowError.

(** Rounding to the nearest integer, ties to even. *)
Definition Qround_half_even (q : Q) : Z :=
  let f := Qfloor q in
  match ((q - inject_Z f) ?= (1 # 2))%Q with
  | Lt => f
  | Gt => f + 1
  | Eq => if Z.even f then f else f + 1
  end.

(** [timedelta(days, seconds, microseconds, minutes, hours, weeks)] *)
Definition timedelta_new (days seconds microseconds minutes hours weeks : Q)
  : result timedelta :=
  let secs := (weeks * 604800 + days * 86400 + hours * 3600
               + minutes * 60 + seconds)%Q in
  timedelta_of_us (Qround_half_even (secs * 1000000 + microseconds)%Q).

Definition timedelta_zero : timedelta := Timedelta 0.

Definition timedelta_sub (a b : timedelta) : result timedelta :=
  timedelta_of_us (td_us a - td_us b).

(** What [parse_duration] returns: a plain [timedelta], or a [Duration]
    that wraps one next to its years and months. *)
Inductive parsed : Type :=
| PTimedelta (t : timedelta)
| PDuration (years months : Q) (tdelta : timedelta).

(** [Duration.__getattr__] forwards to the wrapped [timedelta]. *)
Definition tdelta_of (p : parsed) : timedelta :=
  match p with
  | PTimedelta t => t
  | PDuration _ _ t => t
  end.

(** [.total_seconds()] *)
Definition total_seconds (p : parsed) : Q :=
  (inject_Z (td_us (tdelta_of p)) / 1000000)%Q.

(** [datetime.datetime]: its fields are non-negative integers. *)
Record datetime : Type := Datetime {
  dt_year : N; dt_month : N; dt_day : N;
  dt_hour : N; dt_minute : N; dt_second : N; dt_microsecond : N }.

Definition is_digit (c : ascii) : bool :=
  (48 <=? N_of_ascii c)%N && (N_of_ascii c <=? 57)%N.

Definition is_word_char (c : ascii) : bool :=
  let n := N_of_ascii c in
  (is_digit c || ((65 <=? n) && (n <=? 90)) || ((97 <=? n) && (n <=? 122))
   || (n =? 95) || (128 <=? n))%N.

Definition digit_val (c : ascii) : Z := Z.of_N (N_of_ascii c) - 48.

(** [[0-9]*]: the longest run of digits and what follows it. *)
Fixpoint span_digits (s : string) : string * string :=
  match s with
  | String c s' =>
      if is_digit c
      then let (d, r) := span_digits s' in (String c d, r)
      else (EmptyString, s)
  | EmptyString => (EmptyString, EmptyString)
  end.

Fixpoint digits_value (acc : Z) (s : string) : Z :=
  match s with
  | String c s' => digits_value (10 * acc + digit_val c) s'
  | EmptyString => acc
  end.

Definition is_decimal_sep (c : ascii) : bool :=
  Ascii.eqb c "," || Ascii.eqb c ".".

(** [[0-9]+([,.][0-9]+)?] and its value. *)
Definition number (s : string) : option (Q * string) :=
  match span_digits s with
  | (EmptyString, _) => None
  | (ip, r) =>
      let whole := Some (inject_Z (digits_value 0 ip), r) in
      match r with
      | String c r' =>
          if is_decimal_sep c then
            match span_digits r' with
            | (EmptyString, _) => whole
            | (fp, r'') =>
                Some (inject_Z (digits_value 0 (ip ++ fp))
                      / inject_Z (10 ^ Z.of_nat (String.length fp)), r'')%Q
            end
          else whole
      | EmptyString => whole
      end
  end.

(** An optional group [(n<unit>)?]: absent groups count as 0. *)
Definition component (unit : ascii) (s : string) : Q * string :=
  match number s with
  | Some (q, String c r) => if Ascii.eqb c unit then (q, r) else (0%Q, s)
  | _ => (0%Q, s)
  end.

Record groups : Type := Groups {
  g_sign : option ascii;
  g_years : Q; g_months : Q; g_weeks : Q; g_days : Q;
  g_hours : Q; g_minutes : Q; g_seconds : Q }.

(** [$]: the end of the string, or just before a final newline. *)
Definition at_end (s : string) : bool :=
  String.eqb s "" || String.eqb s (String newline "").

(** [(sign)?] *)
Definition split_sign (s : string) : option ascii * string :=
  match s with
  | String c r =>
      if Ascii.eqb c "+" || Ascii.eqb c "-" then (Some c, r) else (None, s)
  | EmptyString => (None, s)
  end.

(** [(T(nH)?(nM)?(nS)?)?] *)
Definition time_part (s : string) : Q * Q * Q * string :=
  match s with
  | String "T" t0 =>
      let '(h, t1) := component "H" t0 in
      let '(mi, t2) := component "M" t1 in
      let '(se, t3) := component "S" t2 in
      (h, mi, se, t3)
  | _ => (0%Q, 0%Q, 0%Q, s)
  end.

Definition period_match (s : string) : option groups :=
  let '(sg, s1) := split_sign s in
  match s1 with
  | String "P" s2 =>
      match s2 with
      | String c _ =>
          if is_word_char c then
            let '(y, s3) := component "Y" s2 in
            let '(mo, s4) := component "M" s3 in
            let '(w, s5) := component "W" s4 in
            let '(d, s6) := component "D" s5 in
            let '(h, mi, se, s7) := time_part s6 in
            if at_end s7 then Some (Groups sg y mo w d h mi se) else None
          else None
      | EmptyString => None
      end
  | _ => None
  end.

Definition Qis_zero (q : Q) : bool := Qnum q =? 0.

Definition qN (n : N) : Q := inject_Z (Z.of_N n).

Section ParseDuration.
(** [isodate.parse_datetime], used by the alternative format only. *)
Variable parse_datetime : string -> result datetime.

Definition parse_duration (datestring : pyval) : result parsed :=
  match datestring with
  | PyStr s =>
      match period_match s with
      | None =>
          match s with
          | String "P" rest =>
              durdt ← parse_datetime rest;
              t ← timedelta_new (qN (dt_day durdt)) (qN (dt_second durdt))
                    (qN (dt_microsecond durdt)) (qN (dt_minute durdt))
                    (qN (dt_hour durdt)) 0;
              if (dt_year durdt =? 0)%N && (dt_month durdt =? 0)%N
              then mret (PTimedelta t)
              else mret (PDuration (qN (dt_year durdt)) (qN (dt_month durdt)) t)
          | _ => Raise ISO8601Error
          end
      | Some g =>
          ret ← timedelta_new (g_days g) (g_seconds g) 0 (g_minutes g)
                  (g_hours g) (g_weeks g);
          let negative :=
            match g_sign g with
            | Some c => Ascii.eqb c "-"
            | None => false
            end in
          ret' ← (if negative then timedelta_sub timedelta_zero ret
                  else mret ret);
          if Qis_zero (g_years g) && Qis_zero (g_months g)
          then mret (PTimedelta ret')
          else mret (if negative
                     then PDuration (0 - g_years g) (0 - g_months g) ret'
                     else PDuration (g_years g) (g_months g) ret')
      end
  | _ => Raise TypeError
  end.
End ParseDuration.

End Isodate.

(** ** What the scripts get from outside

    The interpreter's conversions, the [isodate] parser, the YouTube Data
    API client and the trained model are not code of the repository: every
    function below takes them from an [env]. *)

Record env : Type := Env {
  (** [int(s)] on a [str]; [None]: [ValueError] *)
  int_of_str : string -> option Z;
  (** [str(v)] on a value that is not a [str] *)
  str_of_value : pyval -> string;
  (** [isodate.parse_duration] *)
  iso_parse_duration : pyval -> result Isodate.parsed;
  (** [build("youtube", "v3", developerKey=API_KEY)] *)
  build : result unit;
  (** [youtube.videos().list(part=..., id=video_id).execute()] *)
  videos_list : string -> result pyval;
  (** [youtube.channels().list(part=..., id=channel_id).execute()] *)
  channels_list : pyval -> result pyval;
  (** [model.predict(pd.DataFrame([record]))[0]] *)
  predict : gmap string pyval -> Q
}.

(** [str(v)] *)
Definition py_str (E : env) (v : pyval) : string :=
  match v with
  | PyStr s => s
  | _ => str_of_value E v
  end.

(** What the page shows ([st.error], [st.info], [st.success], [st.json]). *)
Inductive ui_event : Type :=
| ErrApi (e : exn)                       (* "API Error: {e}" *)
| ErrInvalidUrl                          (* "Invalid YouTube URL. ..." *)
| ErrCouldNotFetch                       (* "Could not fetch video stats. ..." *)
| InfoExtractedId (video_id : string)    (* "Extracted Video ID: ..." *)
| SuccessFetched                         (* "Successfully fetched video statistics!" *)
| ShowStats (stats : pyval)              (* st.json(stats) *)
| Estimate (pred : Q).                   (* "Estimated Ad Revenue: ..." *)

(** ** [yt_streamlit1.py]: helper functions *)

Section Helpers.
Variable E : env.

(** [parse_duration]: the bare [except] turns every failure into 0. *)
Definition parse_duration (duration : pyval) : pyval :=
  match iso_parse_duration E duration with
  | Ok dur => PyFloat (Qred (Isodate.total_seconds dur / 60))
  | Raise _ => PyInt 0
  end.

Definition calc_engagement_rate (stats : pyval) : result pyval :=
  vc ← get stats "viewCount" (PyInt 0);
  views ← int (int_of_str E) vc;
  lc ← get stats "likeCount" (PyInt 0);
  likes ← int (int_of_str E) lc;
  cc ← get stats "commentCount" (PyInt 0);
  comments ← int (int_of_str E) cc;
  if 0 <? views
  then q ← truediv (likes + comments) views; mret (PyFloat q)
  else mret (PyInt 0).

(** The channel query of [get_video_stats]: subscribers and country. *)
Definition channel_info (channel_id : pyval) : result (Z * pyval) :=
  if truthy channel_id then
    channel_response ← channels_list E channel_id;
    citems ← get channel_response "items" PyNone;
    if truthy citems then
      citems' ← getitem channel_response "items";
      info ← item0 citems';
      cstats ← getitem info "statistics";
      sc ← get cstats "subscriberCount" (PyInt 0);
      subscribers ← int (int_of_str E) sc;
      csnippet ← getitem info "snippet";
      country ← get csnippet "country" (PyStr "US");
      mret (subscribers, country)
    else mret (0, PyStr "US")
  else mret (0, PyStr "US").

(** The body of the [try] of [get_video_stats]. *)
Definition video_stats_body (video_id : string)
  : result (option (gmap string pyval)) :=
  _ ← build E;
  video_response ← videos_list E video_id;
  items ← get video_response "items" PyNone;
  if negb (truthy items) then mret None else
  items' ← getitem video_response "items";
  video ← item0 items';
  stats ← getitem video "statistics";
  snippet ← getitem video "snippet";
  details ← getitem video "contentDetails";
  duration ← getitem details "duration";
  channel_id ← get snippet "channelId" PyNone;
  '(subscribers, country) ← channel_info channel_id;
  vc ← get stats "viewCount" (PyInt 0);
  views ← int (int_of_str E) vc;
  lc ← get stats "likeCount" (PyInt 0);
  likes ← int (int_of_str E) lc;
  cc ← get stats "commentCount" (PyInt 0);
  comments ← int (int_of_str E) cc;
  vc' ← get stats "viewCount" (PyInt 0);
  views' ← int (int_of_str E) vc';
  let video_length := parse_duration duration in
  engagement ← calc_engagement_rate stats;
  category ← get snippet "categoryId" (PyStr "22");
  mret (Some (
    <["views" := PyInt views]> (
    <["likes" := PyInt likes]> (
    <["comments" := PyInt comments]> (
    <["watch_time_minutes" := PyInt (views' * 5)]> (
    <["video_length_minutes" := video_length]> (
    <["engagement_rate" := engagement]> (
    <["subscribers" := PyInt subscribers]> (
    <["category" := category]> (
    <["country" := country]> (
    <["device" := PyStr "Mobile"]> ∅))))))))))).

(** [get_video_stats]: [except Exception] reports and returns [None]. *)
Definition get_video_stats (video_id : string)
  : option (gmap string pyval) * list ui_event :=
  match video_stats_body video_id with
  | Ok data => (data, [])
  | Raise e => (None, [ErrApi e])
  end.
End Helpers.

(** ** Category translation *)

Definition category_map : gmap string string :=
  <["1" := "Entertainment"]> (
  <["2" := "Tech"]> (
  <["10" := "Music"]> (
  <["20" := "Gaming"]> (
  <["22" := "Lifestyle"]> (
  <["23" := "Entertainment"]> (
  <["24" := "Entertainment"]> (
  <["27" := "Education"]> (
  <["28" := "Tech"]> ∅)))))))).

(** [category_map.get(cat_id, "Entertainment")] *)
Definition translate_category (cat_id : string) : string :=
  match category_map !! cat_id with
  | Some label => label
  | None => "Entertainment"
  end.

(** The model's six-category vocabulary. *)
Definition vocabulary : list string :=
  ["Gaming"; "Education"; "Tech"; "Entertainment"; "Lifestyle"; "Music"].

(** ** Widgets *)

(** [st.number_input] on integers: the value it returns lies between
    [min_value] and the largest integer the front end handles,
    [(1 << 53) - 1]. *)
Definition max_safe_integer : Z := 2 ^ 53 - 1.

Definition number_input_value (min_value v : Z) : Prop :=
  min_value <= v <= max_safe_integer.

(** A value checked to be one the widget returns. *)
Definition number_input_checked (min_value v : Z)
           (H : (min_value <=? v) && (v <=? max_safe_integer) = true)
  : number_input_value min_value v :=
  match andb_prop _ _ H with
  | conj Hmin Hmax => conj (proj1 (Z.leb_le _ _) Hmin) (proj1 (Z.leb_le _ _) Hmax)
  end.

(** [st.selectbox(label, options, index)]: the option the operator picked,
    the one at [index] while they have not picked any. *)
Definition selectbox (options : list string) (index : nat)
           (choice : option nat) : string :=
  let i := match choice with
           | Some c => if (c <? length options)%nat then c else index
           | None => index
           end in
  nth i options "".

(** [options.index(v)] when [v in options]. *)
Fixpoint index_of (v : pyval) (options : list string) : option nat :=
  match options with
  | [] => None
  | o :: rest =>
      match v with
      | PyStr s => if String.eqb s o then Some 0%nat
                   else option_map S (index_of v rest)
      | _ => None
      end
  end.

(** ** [yt_streamlit1.py]: the page *)

Module Streamlit1.

(** [st.session_state] *)
Abbreviation session_state := (gmap string pyval).

Definition country_options : list string := ["US"; "IN"; "UK"; "CA"; "AU"; "DE"].
Definition category_options : list string :=
  ["Education"; "Entertainment"; "Gaming"; "Tech"; "Music"; "Lifestyle"].
Definition device_options : list string := ["Mobile"; "Desktop"; "Tablet"; "TV"].

(** *** Manual input mode *)

(** The values of the widgets of [manual_form] in one run. *)
Record manual_form : Type := ManualForm {
  views : Z;
  likes : Z;
  comments : Z;
  watch_time_minutes : Z;
  video_length_minutes : Z;
  engagement_rate : Q;           (* st.number_input("Engagement Rate", min_value=0.0) *)
  subscribers : Z;
  category_choice : option nat;
  country_choice : option nat;
  device_choice : option nat;
  submit_manual : bool }.

(** The widgets enforce [min_value]. *)
Definition form_valid (f : manual_form) : Prop :=
  0 <= views f /\ 0 <= likes f /\ 0 <= comments f
  /\ 0 <= watch_time_minutes f /\ 0 <= video_length_minutes f
  /\ (0 <= engagement_rate f)%Q /\ 0 <= subscribers f.

(** The row handed to the predictor ([pd.DataFrame([{...}])]). *)
Definition manual_record (f : manual_form) : gmap string pyval :=
  <["views" := PyInt (views f)]> (
  <["likes" := PyInt (likes f)]> (
  <["comments" := PyInt (comments f)]> (
  <["watch_time_minutes" := PyInt (watch_time_minutes f)]> (
  <["video_length_minutes" := PyInt (video_length_minutes f)]> (
  <["engagement_rate" := PyFloat (engagement_rate f)]> (
  <["subscribers" := PyInt (subscribers f)]> (
  <["category" := PyStr (selectbox
       ["Education"; "Entertainment"; "Gaming"; "Tech"; "Music"; "Lifestyle"]
       0 (category_choice f))]> (
  <["country" := PyStr (selectbox ["IN"; "CA"; "UK"; "US"; "DE"; "AU"]
       0 (country_choice f))]> (
  <["device" := PyStr (selectbox ["Mobile"; "Desktop"; "Tablet"; "TV"]
       0 (device_choice f))]> ∅))))))))).

Definition manual_mode (E : env) (f : manual_form) : list ui_event :=
  if submit_manual f then [Estimate (predict E (manual_record f))] else [].

(** *** YouTube link mode *)

(** The values of the widgets of the link page in one run.  A run is
    triggered by one widget: the two buttons are not both pressed. *)
Record link_form : Type := LinkForm {
  url : string;
  submit_link : bool;
  link_country_choice : option nat;
  link_category_choice : option nat;
  link_device_choice : option nat;
  predict_button : bool }.

(** [if submit_link:] ... *)
Definition submit_link_handler (E : env) (ss : session_state) (url : string)
  : session_state * list ui_event :=
  match extract_video_id url with
  | None => (ss, [ErrInvalidUrl])
  | Some video_id =>
      if negb (truthy (PyStr video_id)) then (ss, [ErrInvalidUrl]) else
      let '(stats, shown) := get_video_stats E video_id in
      match stats with
      | Some d =>
          if truthy (PyDict d) then
            let cat_id :=
              py_str E (match d !! "category" with
                        | Some v => v
                        | None => PyStr "22"
                        end) in
            let d' := <["category" := PyStr (translate_category cat_id)]> d in
            (<["video_stats" := PyDict d']> ss,
             InfoExtractedId video_id :: (shown ++ [SuccessFetched])%list)
          else (ss, InfoExtractedId video_id :: (shown ++ [ErrCouldNotFetch])%list)
      | None => (ss, InfoExtractedId video_id :: (shown ++ [ErrCouldNotFetch])%list)
      end
  end.

(** [if "video_stats" in st.session_state:] ...  The local [stats] is the
    object held by the session state, so the three assignments write
    through to it.  An uncaught exception ends the run. *)
Definition customize (E : env) (ss : session_state) (f : link_form)
  : result (session_state * list ui_event) :=
  match ss !! "video_stats" with
  | None => mret (ss, [])
  | Some stats =>
      c0 ← getitem stats "country";
      let country :=
        selectbox country_options
          (match index_of c0 country_options with Some i => i | None => 0%nat end)
          (link_country_choice f) in
      k0 ← getitem stats "category";
      let category :=
        selectbox category_options
          (match index_of k0 category_options with Some i => i | None => 1%nat end)
          (link_category_choice f) in
      let device := selectbox device_options 0 (link_device_choice f) in
      match stats with
      | PyDict d =>
          let d' := <["device" := PyStr device]> (
                    <["category" := PyStr category]> (
                    <["country" := PyStr country]> d)) in
          let ss' := <["video_stats" := PyDict d']> ss in
          if predict_button f
          then mret (ss', [ShowStats stats; Estimate (predict E d')])
          else mret (ss', [ShowStats stats])
      | _ => Raise TypeError
      end
  end.

Definition link_mode (E : env) (ss : session_state) (f : link_form)
  : result (session_state * list ui_event) :=
  let '(ss1, shown1) :=
    if submit_link f then submit_link_handler E ss (url f) else (ss, []) in
  '(ss2, shown2) ← customize E ss1 f;
  mret (ss2, (shown1 ++ shown2)%list).

(** One run of the script: [mode = st.radio(...)]. *)
Inductive run_input : Type :=
| ManualInput (f : manual_form)
| LinkInput (f : link_form).

Definition run (E : env) (ss : session_state) (i : run_input)
  : result (session_state * list ui_event) :=
  match i with
  | ManualInput f => mret (ss, manual_mode E f)
  | LinkInput f => link_mode E ss f
  end.

(** A prediction was shown in this run. *)
Definition predicted (shown : list ui_event) : bool :=
  existsb (fun e => match e with Estimate _ => true | _ => false end) shown.

End Streamlit1.

(** ** [yt_streamlit.py] *)

Module Streamlit0.

(** The values of the widgets in one run; the integer inputs are values of
    [st.number_input(..., min_value=0)]. *)
Record form : Type := Form {
  views : Z;
  likes : Z;
  comments : Z;
  watch_time : Q;
  video_length : Q;
  subscribers : Z;
  category_choice : option nat;
  device_choice : option nat;
  country_choice : option nat;
  predict_button : bool;
  views_input : number_input_value 0 views;
  likes_input : number_input_value 0 likes;
  comments_input : number_input_value 0 comments;
  subscribers_input : number_input_value 0 subscribers }.

(** [(likes + comments) / views if views > 0 else 0] *)
Definition engagement_rate (views likes comments : Z) : result pyval :=
  if 0 <? views
  then q ← truediv (likes + comments) views; mret (PyFloat q)
  else mret (PyInt 0).

(** The row handed to the predictor, by column name. *)
Definition record (f : form) : result (gmap string pyval) :=
  rate ← engagement_rate (views f) (likes f) (comments f);
  mret (
    <["views" := PyInt (views f)]> (
    <["likes" := PyInt (likes f)]> (
    <["comments" := PyInt (comments f)]> (
    <["watch_time_minutes" := PyFloat (watch_time f)]> (
    <["video_length_minutes" := PyFloat (video_length f)]> (
    <["subscribers" := PyInt (subscribers f)]> (
    <["category" := PyStr (selectbox
         ["Gaming"; "Education"; "Tech"; "Entertainment"; "Lifestyle"; "Music"]
         0 (category_choice f))]> (
    <["device" := PyStr (selectbox ["Mobile"; "Desktop"; "TV"; "Tablet"]
         0 (device_choice f))]> (
    <["country" := PyStr (selectbox ["US"; "IN"; "CA"; "UK"; "DE"; "AU"]
         0 (country_choice f))]> (
    <["engagement_rate" := rate]> ∅)))))))))).

Definition run (E : env) (f : form) : result (list ui_event) :=
  row ← record f;
  if predict_button f then mret [Estimate (predict E row)] else mret [].

End Streamlit0.

(** ** Vocabulary of the properties *)

(** Every character of [t] is in the class. *)
Fixpoint all_in_class (ranges : list (ascii * ascii)) (t : string) : bool :=
  match t with
  | String c t' => in_class ranges c && all_in_class ranges t'
  | EmptyString => true
  end.

(** An 11-character identifier over [0-9A-Za-z_-]. *)
Definition valid_id (t : string) : Prop :=
  String.length t = 11%nat /\ all_in_class id_class t = true.

(** [t] is a valid identifier that follows a ["v="] or a ["/"] which starts
    at position [i] of [s]. *)
Definition occurs_at (s : string) (i : nat) (t : string) : Prop :=
  exists pre sep post,
    s = pre ++ sep ++ t ++ post /\ String.length pre = i
    /\ (sep = "v=" \/ sep = "/") /\ valid_id t.

(** Exactly [n] class characters at the start of [s], and the rest. *)
Fixpoint take_class (ranges : list (ascii * ascii)) (n : nat) (s : string)
  : option (string * string) :=
  match n with
  | O => Some (EmptyString, s)
  | S n' =>
      match s with
      | String c s' =>
          if in_class ranges c then
            match take_class ranges n' s' with
            | Some (t, r) => Some (String c t, r)
            | None => None
            end
          else None
      | EmptyString => None
      end
  end.

(** The identifier the pattern captures when it matches at the start. *)
Definition id_at (s : string) : option string :=
  match s with
  | String "v" (String "=" rest) => option_map fst (take_class id_class 11 rest)
  | String "/" rest => option_map fst (take_class id_class 11 rest)
  | _ => None
  end.

(** The identifier at the first position that has one. *)
Fixpoint find_id (s : string) : option string :=
  match id_at s with
  | Some t => Some t
  | None =>
      match s with
      | String _ s' => find_id s'
      | EmptyString => None
      end
  end.

(** The pattern after the separator. *)
Definition id_tail : regex := Seq (Group (Rep 11 (Class id_class))) (Star Dot).

(** Only digits. *)
Fixpoint all_digits (s : string) : bool :=
  match s with
  | String c s' => Isodate.is_digit c && all_digits s'
  | EmptyString => true
  end.

(** Every group of a duration match is non-negative. *)
Definition groups_nonneg (g : Isodate.groups) : Prop :=
  (0 <= Isodate.g_years g /\ 0 <= Isodate.g_months g
   /\ 0 <= Isodate.g_weeks g /\ 0 <= Isodate.g_days g
   /\ 0 <= Isodate.g_hours g /\ 0 <= Isodate.g_minutes g
   /\ 0 <= Isodate.g_seconds g)%Q.

(** The number a Python value stands for. *)
Definition number_of (v : pyval) : option Q :=
  match v with
  | PyInt z => Some (inject_Z z)
  | PyFloat q => Some q
  | PyBool b => Some (if b then 1 else 0)%Q
  | _ => None
  end.

(** The counter read as [int(stats.get(key, 0))]. *)
Definition counter (E : env) (stats : pyval) (key : string) : result Z :=
  v ← get stats key (PyInt 0); int (int_of_str E) v.

(** The derived ratio: [(likes + comments) / views], 0 without views. *)
Definition derived_rate (views likes comments : Z) (v : pyval) : Prop :=
  (0 < views -> exists q, v = PyFloat q
                /\ (q == inject_Z (likes + comments) / inject_Z views)%Q)
  /\ (views = 0 -> v = PyInt 0).

(** The ways the remote lookup fails: an exception anywhere in the [try]
    block, and in terms of the service: no client, a failed video query, a
    response without items, a failed channel query. *)
Inductive lookup_failure (E : env) (video_id : string) : Prop :=
| body_raised e :
    video_stats_body E video_id = Raise e -> lookup_failure E video_id
| client_failed e :
    build E = Raise e -> lookup_failure E video_id
| video_query_failed e :
    build E = Ok tt -> videos_list E video_id = Raise e ->
    lookup_failure E video_id
| video_not_found d :
    build E = Ok tt -> videos_list E video_id = Ok (PyDict d) ->
    match d !! "items" with Some v => truthy v = false | None => True end ->
    lookup_failure E video_id
| channel_query_failed d video v cid e :
    build E = Ok tt -> videos_list E video_id = Ok (PyDict d) ->
    d !! "items" = Some (PyList (PyDict video :: v)) ->
    match video !! "snippet" with
    | Some (PyDict sn) => sn !! "channelId" = Some cid
    | _ => False
    end ->
    truthy cid = true -> channels_list E cid = Raise e ->
    lookup_failure E video_id.

(** The first item of the video response. *)
Definition first_video (E : env) (video_id : string) : result pyval :=
  response ← videos_list E video_id;
  items ← getitem response "items";
  item0 items.

(** The channel data gives no country: the video names no channel, the
    channel query returns no item, or the channel's snippet has no
    country. *)
Inductive channel_incomplete (E : env) (snippet : gmap string pyval) : Prop :=
| no_channel_id :
    match snippet !! "channelId" with
    | Some cid => truthy cid = false
    | None => True
    end ->
    channel_incomplete E snippet
| no_channel_items cid resp :
    snippet !! "channelId" = Some cid -> truthy cid = true ->
    channels_list E cid = Ok (PyDict resp) ->
    match resp !! "items" with
    | Some v => truthy v = false
    | None => True
    end ->
    channel_incomplete E snippet
| no_channel_country cid resp info rest csn :
    snippet !! "channelId" = Some cid -> truthy cid = true ->
    channels_list E cid = Ok (PyDict resp) ->
    resp !! "items" = Some (PyList (PyDict info :: rest)) ->
    info !! "snippet" = Some (PyDict csn) -> csn !! "country" = None ->
    channel_incomplete E snippet.

(** ** Concrete instances, for running the definitions *)

Module Demo.

Definition is_space (c : ascii) : bool :=
  let n := N_of_ascii c in
  ((n =? 32) || ((9 <=? n) && (n <=? 13)) || ((28 <=? n) && (n <=? 31)))%N.

Fixpoint lstrip (s : string) : string :=
  match s with
  | String c s' => if is_space c then lstrip s' else s
  | EmptyString => EmptyString
  end.

Fixpoint all_space (s : string) : bool :=
  match s with
  | String c s' => is_space c && all_space s'
  | EmptyString => true
  end.

(** Digits, single underscores between digits, then blanks. *)
Fixpoint int_body (acc : Z) (after_digit : bool) (s : string) : option Z :=
  match s with
  | EmptyString => if after_digit then Some acc else None
  | String c s' =>
      if Isodate.is_digit c then int_body (10 * acc + Isodate.digit_val c) true s'
      else if Ascii.eqb c "_" then
        if after_digit then int_body acc false s' else None
      else if is_space c then
        if after_digit && all_space s' then Some acc else None
      else None
  end.

(** [int(s)] for an ASCII decimal literal. *)
Definition int_of_decimal (s : string) : option Z :=
  match lstrip s with
  | String "-" r => option_map Z.opp (int_body 0 false r)
  | String "+" r => int_body 0 false r
  | r => int_body 0 false r
  end.

(** A duration parser whose alternative format always fails. *)
Definition iso : pyval -> result Isodate.parsed :=
  Isodate.parse_duration (fun _ => Raise ValueError).

Definition statistics : pyval :=
  PyDict (list_to_map [
    ("viewCount", PyStr "1000"); ("likeCount", PyStr "100");
    ("commentCount", PyStr "50")]).

Definition video_item : pyval :=
  PyDict (list_to_map [
    ("statistics", statistics);
    ("snippet", PyDict (list_to_map [
        ("channelId", PyStr "UC38IQsAvIsxxjztdMZQtwHA");
        ("categoryId", PyStr "20")]));
    ("contentDetails", PyDict (list_to_map [("duration", PyStr "PT5M30S")]))]).

(** A video without channel and without category. *)
Definition bare_item : pyval :=
  PyDict (list_to_map [
    ("statistics", PyDict (list_to_map [("viewCount", PyStr "7")]));
    ("snippet", PyDict ∅);
    ("contentDetails", PyDict (list_to_map [("duration", PyStr "garbage")]))]).

(** A music video that names no channel. *)
Definition music_snippet : gmap string pyval :=
  list_to_map [("categoryId", PyStr "10")].

Definition music_item : pyval :=
  PyDict (list_to_map [
    ("statistics", PyDict (list_to_map [("viewCount", PyStr "12")]));
    ("snippet", PyDict music_snippet);
    ("contentDetails", PyDict (list_to_map [("duration", PyStr "PT3M")]))]).

Definition channel_item : pyval :=
  PyDict (list_to_map [
    ("statistics", PyDict (list_to_map [("subscriberCount", PyStr "2500")]));
    ("snippet", PyDict (list_to_map [("country", PyStr "IN")]))]).

Definition response (items : list pyval) : pyval :=
  PyDict (list_to_map [("items", PyList items)]).

(** A service that knows three videos and one channel. *)
Definition E : env := {|
  int_of_str := int_of_decimal;
  str_of_value := fun _ => "";
  iso_parse_duration := iso;
  build := Ok tt;
  videos_list := fun video_id =>
    if String.eqb video_id "dQw4w9WgXcQ" then Ok (response [video_item])
    else if String.eqb video_id "bare_video1" then Ok (response [bare_item])
    else if String.eqb video_id "music_video" then Ok (response [music_item])
    else if String.eqb video_id "quota_error" then Raise (HttpError "quotaExceeded")
    else Ok (response []);
  channels_list := fun channel_id => Ok (response [channel_item]);
  predict := fun _ => (1234 # 100)%Q
|}.

(** What the lookup returns for the videos. *)
Definition fetched : gmap string pyval :=
  match fst (get_video_stats E "dQw4w9WgXcQ") with
  | Some d => d
  | None => ∅
  end.

(** The record the link handler stores for the first video, and the
    session state that holds it. *)
Definition stored : gmap string pyval :=
  <["category" := PyStr "Gaming"]> fetched.

Definition session : gmap string pyval :=
  <["video_stats" := PyDict stored]> ∅.

(** Pressing "Predict Revenue" with the selectors untouched. *)
Definition press_predict : Streamlit1.link_form :=
  Streamlit1.LinkForm "" false None None None true.

(** A submission of the form of [yt_streamlit.py]. *)
Definition submission : Streamlit0.form :=
  Streamlit0.Form 1000 100 50 (120 # 1) (10 # 1) 5000 None None None true
    (number_input_checked 0 1000 eq_refl) (number_input_checked 0 100 eq_refl)
    (number_input_checked 0 50 eq_refl) (number_input_checked 0 5000 eq_refl).

(** A manual submission whose engagement rate is not the derived one. *)
Definition manual_entry : Streamlit1.manual_form :=
  Streamlit1.ManualForm 100 10 5 0 0 (9 # 10) 0 None None None true.

Definition fetched_music : gmap string pyval :=
  match fst (get_video_stats E "music_video") with
  | Some d => d
  | None => ∅
  end.

Definition fetched_bare : gmap string pyval :=
  match fst (get_video_stats E "bare_video1") with
  | Some d => d
  | None => ∅
  end.

End Demo.

(** ** Vocabulary of the further properties *)

(** The ten columns of the row the predictor takes. *)
Definition feature_columns : gset string :=
  list_to_set ["views"; "likes"; "comments"; "watch_time_minutes";
               "video_length_minutes"; "engagement_rate"; "subscribers";
               "category"; "country"; "device"].

(** The part of the [try] block of [get_video_stats] that works on the
    selected item [video = video_response["items"][0]]. *)
Definition video_record (E : env) (video : pyval)
  : result (option (gmap string pyval)) :=
  stats ← getitem video "statistics";
  snippet ← getitem video "snippet";
  details ← getitem video "contentDetails";
  duration ← getitem details "duration";
  channel_id ← get snippet "channelId" PyNone;
  '(subscribers, country) ← channel_info E channel_id;
  vc ← get stats "viewCount" (PyInt 0);
  views ← int (int_of_str E) vc;
  lc ← get stats "likeCount" (PyInt 0);
  likes ← int (int_of_str E) lc;
  cc ← get stats "commentCount" (PyInt 0);
  comments ← int (int_of_str E) cc;
  vc' ← get stats "viewCount" (PyInt 0);
  views' ← int (int_of_str E) vc';
  let video_length := parse_duration E duration in
  engagement ← calc_engagement_rate E stats;
  category ← get snippet "categoryId" (PyStr "22");
  mret (Some (
    <["views" := PyInt views]> (
    <["likes" := PyInt likes]> (
    <["comments" := PyInt comments]> (
    <["watch_time_minutes" := PyInt (views' * 5)]> (
    <["video_length_minutes" := video_length]> (
    <["engagement_rate" := engagement]> (
    <["subscribers" := PyInt subscribers]> (
    <["category" := category]> (
    <["country" := country]> (
    <["device" := PyStr "Mobile"]> ∅))))))))))).

(** The same surroundings with another channel service. *)
Definition with_channels (E : env) (service : pyval -> result pyval) : env := {|
  int_of_str := int_of_str E;
  str_of_value := str_of_value E;
  iso_parse_duration := iso_parse_duration E;
  build := build E;
  videos_list := videos_list E;
  channels_list := service;
  predict := predict E
|}.

(** The video names no channel: [if channel_id:] is not taken. *)
Definition no_channel (snippet : gmap string pyval) : Prop :=
  match snippet !! "channelId" with
  | Some cid => truthy cid = false
  | None => True
  end.

(** A record with the ten columns whose three enumerated fields hold one
    of the options of their selectbox. *)
Definition record_ok (d : gmap string pyval) : Prop :=
  dom d = feature_columns
  /\ (exists c, d !! "country" = Some (PyStr c)
                /\ c ∈ Streamlit1.country_options)
  /\ (exists k, d !! "category" = Some (PyStr k)
                /\ k ∈ Streamlit1.category_options)
  /\ (exists v, d !! "device" = Some (PyStr v)
                /\ v ∈ Streamlit1.device_options).

(** The session holds no record, or a dict with the ten columns. *)
Definition session_columns (ss : gmap string pyval) : Prop :=
  match ss !! "video_stats" with
  | None => True
  | Some stats => exists d, stats = PyDict d /\ dom d = feature_columns
  end.

(** The session holds no record, or a dict that is such a record. *)
Definition session_ok (ss : gmap string pyval) : Prop :=
  match ss !! "video_stats" with
  | None => True
  | Some stats => exists d, stats = PyDict d /\ record_ok d
  end.

(** Successive runs of the script within one session. *)
Fixpoint reruns (E : env) (ss : gmap string pyval)
         (inputs : list Streamlit1.run_input)
  : result (gmap string pyval * list ui_event) :=
  match inputs with
  | [] => mret (ss, [])
  | i :: rest =>
      '(ss1, shown1) ← Streamlit1.run E ss i;
      '(ss2, shown2) ← reruns E ss1 rest;
      mret (ss2, (shown1 ++ shown2)%list)
  end.

(** The same surroundings with another duration parser. *)
Definition with_iso (E : env) (parser : pyval -> result Isodate.parsed) : env := {|
  int_of_str := int_of_str E;
  str_of_value := str_of_value E;
  iso_parse_duration := parser;
  build := build E;
  videos_list := videos_list E;
  channels_list := channels_list E;
  predict := predict E
|}.

(** The same surroundings with another video service. *)
Definition with_videos (E : env) (service : string -> result pyval) : env := {|
  int_of_str := int_of_str E;
  str_of_value := str_of_value E;
  iso_parse_duration := iso_parse_duration E;
  build := build E;
  videos_list := service;
  channels_list := channels_list E;
  predict := predict E
|}.

(** A video item without [contentDetails], and a service that returns it. *)
Definition partial_sections : gmap string pyval :=
  list_to_map [("statistics", PyDict ∅); ("snippet", PyDict ∅)].

Definition partial_service : env :=
  with_videos Demo.E (fun _ => Ok (Demo.response [PyDict partial_sections])).

(** The selection a selectbox falls back to for a stored value. *)
Definition default_index (v : pyval) (options : list string) (fallback : nat)
  : nat :=
  match index_of v options with
  | Some i => i
  | None => fallback
  end.

(** The record after the three assignments [stats["country"] = country],
    [stats["category"] = category], [stats["device"] = device] of the
    customisation block, for the widget values [f] and the country [c0]
    and category [k0] the record held before. *)
Definition write_selections (f : Streamlit1.link_form) (c0 k0 : pyval)
           (d : gmap string pyval) : gmap string pyval :=
  <["device" := PyStr (selectbox Streamlit1.device_options 0
                         (Streamlit1.link_device_choice f))]> (
  <["category" := PyStr (selectbox Streamlit1.category_options
                           (default_index k0 Streamlit1.category_options 1)
                           (Streamlit1.link_category_choice f))]> (
  <["country" := PyStr (selectbox Streamlit1.country_options
                          (default_index c0 Streamlit1.country_options 0)
                          (Streamlit1.link_country_choice f))]> d)).

(** The label the fetch handler gives a fetched record:
    [category_map.get(str(stats.get("category", "22")), "Entertainment")]. *)
Definition category_label (E : env) (d : gmap string pyval) : string :=
  translate_category
    (py_str E (match d !! "category" with Some v => v | None => PyStr "22" end)).

(** The run brings no new record: the fetch button is not pressed, the URL
    has no identifier, or the lookup returns nothing. *)
Definition no_new_record (E : env) (f : Streamlit1.link_form) : Prop :=
  Streamlit1.submit_link f = false
  \/ extract_video_id (Streamlit1.url f) = None
  \/ exists video_id,
       extract_video_id (Streamlit1.url f) = Some video_id
       /\ fst (get_video_stats E video_id) = None.

(** Counters with one view and [10 ^ 309] likes. *)
Definition huge_likes : pyval :=
  PyDict (list_to_map [("viewCount", PyInt 1); ("likeCount", PyInt (10 ^ 309));
                       ("commentCount", PyInt 0)]).

(** * Properties *)

(** ** The error monad *)

Lemma bind_ok {A B} (m : result A) (k : A -> result B) (b : B) :
  (m ≫= k) = Ok b -> exists a, m = Ok a /\ k a = Ok b.
Proof. destruct m as [a|e]; [|discriminate]. intros H. now exists a. Qed.

(** Inverts a successful sequence of binds, one step at a time. *)
Ltac bind_inv H :=
  let a := fresh "a" in
  let Ha := fresh "Ha" in
  apply bind_ok in H as (a & Ha & H).

(** ** Identifier extraction *)

(** *** Strings *)

Lemma append_nil (b : string) : "" ++ b = b.
Proof. reflexivity. Qed.

Lemma append_cons (x : ascii) (a b : string) :
  String x a ++ b = String x (a ++ b).
Proof. reflexivity. Qed.

Lemma length_append (a b : string) :
  String.length (a ++ b) = (String.length a + String.length b)%nat.
Proof.
  induction a as [|c a IH]; [reflexivity|].
  rewrite append_cons. simpl. now rewrite IH.
Qed.

Lemma substring_prefix (a b : string) :
  substring 0 (String.length a) (a ++ b) = a.
Proof.
  induction a as [|c a IH].
  - rewrite append_nil. destruct b; reflexivity.
  - rewrite append_cons. simpl. now rewrite IH.
Qed.

Lemma consumed_append (t r : string) : consumed (t ++ r) r = t.
Proof.
  unfold consumed. rewrite length_append.
  replace (String.length t + String.length r - String.length r)%nat
    with (String.length t) by lia.
  apply substring_prefix.
Qed.

Lemma append_assoc (a b c : string) : (a ++ b) ++ c = a ++ (b ++ c).
Proof.
  induction a as [|x a IH]; [reflexivity|].
  rewrite !append_cons. now rewrite IH.
Qed.

(** *** The matcher on the identifier pattern *)

Lemma m_rep_class {A} ranges n : forall s g (k : string -> option string -> option A),
  m (Rep n (Class ranges)) s g k =
  match take_class ranges n s with
  | Some (_, r) => k r g
  | None => None
  end.
Proof.
  cbn [m]. induction n as [|n IH]; intros s g k; [reflexivity|].
  destruct s as [|c s']; [reflexivity|].
  cbn [rep_loop take_class]. destruct (in_class ranges c); [|reflexivity].
  rewrite IH. destruct (take_class ranges n s') as [[t r]|]; reflexivity.
Qed.

Lemma take_class_sound ranges n : forall s t r,
  take_class ranges n s = Some (t, r) ->
  s = t ++ r /\ String.length t = n /\ all_in_class ranges t = true.
Proof.
  induction n as [|n IH]; intros s t r H; simpl in H.
  - injection H as <- <-. repeat split.
  - destruct s as [|c s']; [discriminate|].
    destruct (in_class ranges c) eqn:Hc; [|discriminate].
    destruct (take_class ranges n s') as [[t' r']|] eqn:Ht; [|discriminate].
    injection H as <- <-. destruct (IH _ _ _ Ht) as (-> & <- & Hall).
    rewrite append_cons. simpl. rewrite Hc, Hall. repeat split.
Qed.

Lemma take_class_complete ranges (t r : string) :
  all_in_class ranges t = true ->
  take_class ranges (String.length t) (t ++ r) = Some (t, r).
Proof.
  induction t as [|c t IH]; intros H; [reflexivity|].
  simpl in H. apply andb_prop in H as [Hc Ht].
  rewrite append_cons. simpl. now rewrite Hc, (IH Ht).
Qed.

Lemma star_dot_total (s : string) (g : option string) :
  m (Star Dot) s g (fun _ g' => Some g') = Some g.
Proof.
  cbn [m]. generalize (S (String.length s)) as fuel.
  intros fuel; revert s; induction fuel as [|fuel IH]; intros s; [reflexivity|].
  cbn [star_loop]. destruct s as [|c s']; [reflexivity|].
  destruct (Ascii.eqb c newline); [reflexivity|].
  replace (String.length s' <? String.length (String c s'))%nat with true
    by (symmetry; apply Nat.ltb_lt; simpl; lia).
  now rewrite IH.
Qed.

Lemma match_tail (s : string) (g : option string) :
  m id_tail s g (fun _ g' => Some g') =
  option_map (fun p => Some (fst p)) (take_class id_class 11 s).
Proof.
  unfold id_tail.
  change (m (Rep 11 (Class id_class)) s g
            (fun s' _ => m (Star Dot) s' (Some (consumed s s')) (fun _ g' => Some g'))
          = option_map (fun p => Some (fst p)) (take_class id_class 11 s)).
  rewrite m_rep_class.
  destruct (take_class id_class 11 s) as [[t r]|] eqn:Ht; [|reflexivity].
  rewrite star_dot_total. apply take_class_sound in Ht as (-> & _ & _).
  now rewrite consumed_append.
Qed.

Lemma match_here_id_at (s : string) :
  match_here video_id_regex s = option_map Some (id_at s).
Proof.
  unfold match_here, video_id_regex. fold id_tail.
  pose proof match_tail as Htail. remember id_tail as tl eqn:Etl. clear Etl.
  destruct s as [|c s1]; [reflexivity|].
  destruct c as [[] [] [] [] [] [] [] []]; try reflexivity.
  - (* "/" *)
    cbn [m Ascii.eqb Bool.eqb andb id_at]. rewrite Htail.
    destruct (take_class id_class 11 s1) as [[t r]|]; reflexivity.
  - (* "v" *)
    destruct s1 as [|c2 s2]; [reflexivity|].
    destruct c2 as [[] [] [] [] [] [] [] []]; try reflexivity.
    cbn [m Ascii.eqb Bool.eqb andb id_at]. rewrite Htail.
    destruct (take_class id_class 11 s2) as [[t r]|]; reflexivity.
Qed.

Lemma extract_find_id (s : string) : extract_video_id s = find_id s.
Proof.
  unfold extract_video_id.
  induction s as [|c s IH]; cbn [search find_id]; rewrite match_here_id_at.
  - destruct (id_at ""); reflexivity.
  - destruct (id_at (String c s)); [reflexivity | exact IH].
Qed.

(** *** Occurrences *)

Lemma length_zero_empty (s : string) : String.length s = 0%nat -> s = "".
Proof. destruct s; [reflexivity | discriminate]. Qed.

Lemma id_at_occurs (s t : string) : id_at s = Some t <-> occurs_at s 0 t.
Proof.
  split.
  - intros H.
    assert (exists sep rest r, s = sep ++ rest /\ (sep = "v=" \/ sep = "/")
              /\ take_class id_class 11 rest = Some (t, r)) as (sep & rest & r & -> & Hsep & Ht).
    { unfold id_at in H.
      destruct s as [|c s1]; [discriminate|].
      destruct c as [[] [] [] [] [] [] [] []]; try discriminate.
      - destruct (take_class id_class 11 s1) as [[t' r]|] eqn:Ht; [|discriminate].
        injection H as <-. exists "/", s1, r. auto.
      - destruct s1 as [|c2 s2]; [discriminate|].
        destruct c2 as [[] [] [] [] [] [] [] []]; try discriminate.
        destruct (take_class id_class 11 s2) as [[t' r]|] eqn:Ht; [|discriminate].
        injection H as <-. exists "v=", s2, r. auto. }
    apply take_class_sound in Ht as (-> & Hlen & Hall).
    exists "", sep, r. repeat split; assumption.
  - intros (pre & sep & post & -> & Hpre & Hsep & Hlen & Hall).
    apply length_zero_empty in Hpre as ->. rewrite append_nil.
    pose proof (take_class_complete id_class t post Hall) as Ht.
    rewrite Hlen in Ht.
    destruct Hsep as [-> | ->]; rewrite !append_cons, append_nil;
      cbn [id_at]; now rewrite Ht.
Qed.

Lemma occurs_at_S (c : ascii) (s : string) (i : nat) (t : string) :
  occurs_at (String c s) (S i) t <-> occurs_at s i t.
Proof.
  split.
  - intros (pre & sep & post & Hs & Hpre & Hrest).
    destruct pre as [|c' pre]; [discriminate|].
    rewrite append_cons in Hs. injection Hs as -> ->.
    exists pre, sep, post. simpl in Hpre.
    split; [reflexivity|]. split; [lia | exact Hrest].
  - intros (pre & sep & post & -> & <- & Hrest).
    exists (String c pre), sep, post.
    split; [reflexivity|]. split; [reflexivity | exact Hrest].
Qed.

Lemma occurs_at_empty (i : nat) (t : string) : ~ occurs_at "" i t.
Proof.
  intros (pre & sep & post & Hs & _ & _ & Hlen & _).
  apply (f_equal String.length) in Hs.
  rewrite !length_append, Hlen in Hs. simpl in Hs. lia.
Qed.

Lemma find_id_leftmost (s t : string) :
  find_id s = Some t <->
  exists i, occurs_at s i t /\ forall j t', (j < i)%nat -> ~ occurs_at s j t'.
Proof.
  revert t. induction s as [|c s IH]; intros t.
  - split; [discriminate|]. intros (i & H & _). now apply occurs_at_empty in H.
  - cbn [find_id]. destruct (id_at (String c s)) as [t0|] eqn:H0.
    + apply id_at_occurs in H0. split.
      * intros [= <-]. exists 0%nat. split; [assumption|]. intros j t' Hj. lia.
      * intros (i & Hi & Hmin). destruct i as [|i].
        -- apply id_at_occurs in Hi, H0. congruence.
        -- exfalso. apply (Hmin 0%nat t0); [lia | assumption].
    + rewrite IH. split.
      * intros (i & Hi & Hmin). exists (S i). split; [now apply occurs_at_S|].
        intros j t' Hj Hocc. destruct j as [|j].
        -- apply id_at_occurs in Hocc. congruence.
        -- apply occurs_at_S in Hocc. apply (Hmin j t'); [lia | assumption].
      * intros (i & Hi & Hmin). destruct i as [|i].
        -- apply id_at_occurs in Hi. congruence.
        -- exists i. split; [now apply occurs_at_S in Hi|].
           intros j t' Hj Hocc. apply (Hmin (S j) t'); [lia|].
           now apply occurs_at_S.
Qed.

Lemma find_id_none (s : string) :
  find_id s = None <-> forall i t, ~ occurs_at s i t.
Proof.
  induction s as [|c s IH].
  - split; [|reflexivity]. intros _ i t. apply occurs_at_empty.
  - cbn [find_id]. destruct (id_at (String c s)) as [t0|] eqn:H0.
    + split; [discriminate|]. intros H. apply id_at_occurs in H0.
      now apply H in H0.
    + rewrite IH. split.
      * intros H i t Hocc. destruct i as [|i].
        -- apply id_at_occurs in Hocc. congruence.
        -- apply occurs_at_S in Hocc. now apply H in Hocc.
      * intros H i t Hocc. apply (H (S i) t). now apply occurs_at_S.
Qed.

(** C3, amended.  Extraction returns the identifier at the leftmost
    position where a ["v="] or a ["/"] is followed by 11 identifier
    characters: it returns [t] exactly when [t] occurs so at some position
    and nothing occurs at an earlier one; it returns [None] exactly when
    there is no such occurrence, also on the empty string; and the example
    URL gives ["dQw4w9WgXcQ"]. *)
Theorem extract_video_id_leftmost :
  (forall url t,
      extract_video_id url = Some t <->
      exists i, occurs_at url i t
                /\ forall j t', (j < i)%nat -> ~ occurs_at url j t')
  /\ (forall url, extract_video_id url = None <-> forall i t, ~ occurs_at url i t)
  /\ extract_video_id "" = None
  /\ extract_video_id "https://www.youtube.com/watch?v=dQw4w9WgXcQ"
     = Some "dQw4w9WgXcQ".
Proof.
  split; [|split; [|split]].
  - intros url t. rewrite extract_find_id. apply find_id_leftmost.
  - intros url. rewrite extract_find_id. apply find_id_none.
  - reflexivity.
  - vm_compute. reflexivity.
Qed.

Lemma extract_video_id_leftmost_witness :
  exists i, occurs_at "https://youtu.be/dQw4w9WgXcQ" i "dQw4w9WgXcQ"
            /\ forall j t', (j < i)%nat ->
                            ~ occurs_at "https://youtu.be/dQw4w9WgXcQ" j t'.
Proof.
  apply (proj1 (proj1 extract_video_id_leftmost
                  "https://youtu.be/dQw4w9WgXcQ" "dQw4w9WgXcQ")).
  vm_compute. reflexivity.
Defined.

(** C3, as stated, fails: an identifier that follows ["v="] is not returned
    when an earlier ["/"] is followed by 11 identifier characters.  Here
    ["/attribution_link"] comes first and ["attribution"] is returned. *)
Lemma extract_video_id_not_every_occurrence :
  ~ (forall url i t, occurs_at url i t -> extract_video_id url = Some t).
Proof.
  intros H.
  specialize (H "https://www.youtube.com/attribution_link?u=/watch?v=dQw4w9WgXcQ"
                50%nat "dQw4w9WgXcQ").
  assert (occurs_at "https://www.youtube.com/attribution_link?u=/watch?v=dQw4w9WgXcQ"
            50 "dQw4w9WgXcQ") as Hocc.
  { exists "https://www.youtube.com/attribution_link?u=/watch?", "v=", "".
    repeat split; auto. }
  apply H in Hocc. vm_compute in Hocc. discriminate.
Qed.

(** C10. Extraction returns [None] or a string of exactly 11 characters,
    all in [0-9A-Za-z_-], that occurs contiguously in the input. *)
Theorem extract_video_id_shape (url : string) :
  match extract_video_id url with
  | None => True
  | Some t =>
      String.length t = 11%nat /\ all_in_class id_class t = true
      /\ exists pre post, url = pre ++ t ++ post
  end.
Proof.
  destruct (extract_video_id url) as [t|] eqn:H; [|exact I].
  rewrite extract_find_id in H. apply find_id_leftmost in H as (i & Hocc & _).
  destruct Hocc as (pre & sep & post & -> & _ & _ & Hlen & Hall).
  repeat split; try assumption.
  exists (pre ++ sep), post. now rewrite append_assoc.
Qed.

(** ** Duration normalisation *)

Module IsodateFacts.
Import Isodate.

Lemma span_digits_all (s : string) : all_digits (fst (span_digits s)) = true.
Proof.
  induction s as [|c s IH]; [reflexivity|].
  simpl. destruct (is_digit c) eqn:Hc; [|reflexivity].
  destruct (span_digits s) as [d r]. simpl in *. now rewrite Hc, IH.
Qed.

Lemma digit_val_nonneg (c : ascii) : is_digit c = true -> 0 <= digit_val c.
Proof.
  unfold is_digit, digit_val. intros H. apply andb_prop in H as [H _].
  apply N.leb_le in H. lia.
Qed.

Lemma digits_value_nonneg (s : string) : forall acc,
  all_digits s = true -> 0 <= acc -> 0 <= digits_value acc s.
Proof.
  induction s as [|c s IH]; intros acc Hs Hacc; simpl in *; [assumption|].
  apply andb_prop in Hs as [Hc Hs]. apply IH; [assumption|].
  pose proof (digit_val_nonneg c Hc). lia.
Qed.

Lemma all_digits_append (a b : string) :
  all_digits a = true -> all_digits b = true -> all_digits (a ++ b) = true.
Proof.
  induction a as [|c a IH]; intros Ha Hb; [assumption|].
  rewrite append_cons. simpl in *. apply andb_prop in Ha as [Hc Ha].
  now rewrite Hc, IH.
Qed.

Lemma inject_Z_nonneg (z : Z) : 0 <= z -> (0 <= inject_Z z)%Q.
Proof. intros H. unfold Qle. simpl. lia. Qed.

Lemma number_nonneg (s : string) (q : Q) (r : string) :
  number s = Some (q, r) -> (0 <= q)%Q.
Proof.
  unfold number. pose proof (span_digits_all s) as Hip.
  destruct (span_digits s) as [ip r0]. simpl in Hip.
  destruct ip as [|c ip]; [discriminate|].
  assert (0 <= inject_Z (digits_value 0 (String c ip)))%Q as Hwhole
    by (apply inject_Z_nonneg, digits_value_nonneg; [assumption | lia]).
  destruct r0 as [|c0 r0]; [now intros [= <- <-]|].
  destruct (is_decimal_sep c0); [|now intros [= <- <-]].
  pose proof (span_digits_all r0) as Hfp.
  destruct (span_digits r0) as [fp r1]. simpl in Hfp.
  destruct fp as [|d fp]; [now intros [= <- <-]|].
  intros [= <- <-].
  apply Qle_shift_div_l.
  - change 0%Q with (inject_Z 0). rewrite <- Zlt_Qlt.
    apply Z.pow_pos_nonneg; [reflexivity | apply Nat2Z.is_nonneg].
  - rewrite Qmult_0_l. apply inject_Z_nonneg.
    apply (digits_value_nonneg (String c ip ++ String d fp) 0); [|lia].
    now apply all_digits_append.
Qed.

Lemma component_nonneg (u : ascii) (s : string) : (0 <= fst (component u s))%Q.
Proof.
  unfold component. destruct (number s) as [[q r]|] eqn:H; [|apply Qle_refl].
  destruct r as [|c r]; [apply Qle_refl|].
  destruct (Ascii.eqb c u); [|apply Qle_refl].
  simpl. eapply number_nonneg, H.
Qed.

Lemma time_part_nonneg (s : string) :
  let '(h, mi, se, _) := time_part s in (0 <= h /\ 0 <= mi /\ 0 <= se)%Q.
Proof.
  assert (Hz : (0 <= 0 /\ 0 <= 0 /\ 0 <= 0)%Q) by (repeat split; apply Qle_refl).
  unfold time_part. destruct s as [|c t0]; [exact Hz|].
  destruct c as [[] [] [] [] [] [] [] []]; try exact Hz.
  pose proof (component_nonneg "H" t0) as Hh.
  destruct (component "H" t0) as [h t1].
  pose proof (component_nonneg "M" t1) as Hmi.
  destruct (component "M" t1) as [mi t2].
  pose proof (component_nonneg "S" t2) as Hse.
  destruct (component "S" t2) as [se t3]. auto.
Qed.

Lemma period_match_inv (s : string) (g : groups) :
  period_match s = Some g ->
  groups_nonneg g /\ g_sign g = fst (split_sign s).
Proof.
  unfold period_match. destruct (split_sign s) as [sg s1].
  destruct s1 as [|p s2]; [discriminate|].
  destruct p as [[] [] [] [] [] [] [] []]; try discriminate.
  destruct s2 as [|c s2']; [discriminate|].
  destruct (is_word_char c); [|discriminate].
  pose proof (component_nonneg "Y" (String c s2')) as Hy.
  destruct (component "Y" (String c s2')) as [y s3].
  pose proof (component_nonneg "M" s3) as Hmo.
  destruct (component "M" s3) as [mo s4].
  pose proof (component_nonneg "W" s4) as Hw.
  destruct (component "W" s4) as [w s5].
  pose proof (component_nonneg "D" s5) as Hd.
  destruct (component "D" s5) as [d s6].
  pose proof (time_part_nonneg s6) as Ht.
  destruct (time_part s6) as [[[h mi] se] s7].
  destruct (at_end s7); [|discriminate].
  intros [= <-]. unfold groups_nonneg. simpl in *. tauto.
Qed.

Lemma split_sign_minus (s : string) :
  String.prefix "-" s = false -> fst (split_sign s) <> Some "-"%char.
Proof.
  unfold split_sign. destruct s as [|c r]; [discriminate|].
  destruct (Ascii.eqb_spec c "-") as [->|Hc].
  - simpl. destruct r; discriminate.
  - intros _. destruct (Ascii.eqb c "+"); simpl; congruence.
Qed.


(** *** Rounding and [timedelta] *)

Lemma Qround_half_even_nonneg (q : Q) : (0 <= q)%Q -> 0 <= Qround_half_even q.
Proof.
  intros Hq. unfold Qround_half_even.
  assert (0 <= Qfloor q) as Hf by (change 0 with (Qfloor 0); now apply Qfloor_resp_le).
  destruct (q - inject_Z (Qfloor q) ?= 1 # 2)%Q; [destruct (Z.even _)| |]; lia.
Qed.

Lemma timedelta_of_us_inv (us : Z) (t : timedelta) :
  timedelta_of_us us = Ok t -> td_us t = us.
Proof.
  unfold timedelta_of_us. destruct (_ && _); [|discriminate]. now intros [= <-].
Qed.

Lemma timedelta_new_eq (d s us mi h w : Q) :
  timedelta_new d s us mi h w =
  timedelta_of_us (Qround_half_even
    ((w * 604800 + d * 86400 + h * 3600 + mi * 60 + s) * 1000000 + us)%Q).
Proof. reflexivity. Qed.

Lemma secs_nonneg (d s us mi h w : Q) :
  (0 <= d)%Q -> (0 <= s)%Q -> (0 <= us)%Q -> (0 <= mi)%Q -> (0 <= h)%Q -> (0 <= w)%Q ->
  (0 <= (w * 604800 + d * 86400 + h * 3600 + mi * 60 + s) * 1000000 + us)%Q.
Proof. intros. lra. Qed.

Lemma timedelta_new_nonneg (d s us mi h w : Q) (t : timedelta) :
  (0 <= d)%Q -> (0 <= s)%Q -> (0 <= us)%Q -> (0 <= mi)%Q -> (0 <= h)%Q -> (0 <= w)%Q ->
  timedelta_new d s us mi h w = Ok t -> 0 <= td_us t.
Proof.
  intros Hd Hs Hus Hmi Hh Hw H. rewrite timedelta_new_eq in H.
  apply timedelta_of_us_inv in H. rewrite H.
  apply Qround_half_even_nonneg. now apply secs_nonneg.
Qed.

Lemma qN_nonneg (n : N) : (0 <= qN n)%Q.
Proof. apply inject_Z_nonneg. lia. Qed.

Lemma total_seconds_nonneg (p : parsed) :
  0 <= td_us (tdelta_of p) -> (0 <= total_seconds p)%Q.
Proof.
  intros H. unfold total_seconds. apply Qle_shift_div_l; [reflexivity|].
  rewrite Qmult_0_l. now apply inject_Z_nonneg.
Qed.

Lemma tdelta_of_if (b : bool) (y mo : Q) (t : timedelta) (p : parsed) :
  (if b then mret (PTimedelta t) else mret (PDuration y mo t)) = Ok p ->
  tdelta_of p = t.
Proof. destruct b; intros [= <-]; reflexivity. Qed.

(** A duration without a leading minus sign is not negative. *)
Lemma isodate_unsigned_nonneg pdt (s : string) (p : parsed) :
  String.prefix "-" s = false ->
  Isodate.parse_duration pdt (PyStr s) = Ok p -> 0 <= td_us (tdelta_of p).
Proof.
  intros Hs H. unfold Isodate.parse_duration in H.
  destruct (period_match s) as [g|] eqn:Hm.
  - apply period_match_inv in Hm as [(Hy & Hmo & Hw & Hd & Hh & Hmi & Hse) Hsign].
    assert (match g_sign g with Some c => Ascii.eqb c "-" | None => false end = false)
      as Hneg.
    { rewrite Hsign. pose proof (split_sign_minus s Hs) as Hne.
      destruct (fst (split_sign s)) as [c|]; [|reflexivity].
      destruct (Ascii.eqb_spec c "-"); congruence. }
    apply bind_ok in H as (ret & Hret & H). cbv zeta in H. rewrite Hneg in H.
    apply bind_ok in H as (ret' & [= <-] & H).
    apply tdelta_of_if in H as ->.
    revert Hret. apply timedelta_new_nonneg; try assumption; apply Qle_refl.
  - destruct s as [|c rest]; [discriminate|].
    destruct c as [[] [] [] [] [] [] [] []]; try discriminate.
    apply bind_ok in H as (dt & _ & H).
    apply bind_ok in H as (t & Ht & H).
    apply tdelta_of_if in H as ->.
    revert Ht. apply timedelta_new_nonneg; try apply qN_nonneg; apply Qle_refl.
Qed.

End IsodateFacts.

Lemma parse_duration_cases (E : env) (d : pyval) :
  match iso_parse_duration E d with
  | Raise _ => parse_duration E d = PyInt 0
  | Ok dur => exists q, parse_duration E d = PyFloat q
                        /\ (q == Isodate.total_seconds dur / 60)%Q
  end.
Proof.
  unfold parse_duration. destruct (iso_parse_duration E d) as [dur|e]; [|reflexivity].
  eexists. split; [reflexivity | apply Qred_correct].
Qed.

(** C4, amended.  For every input, duration normalisation returns a
    defined number: 0 when the parser fails, the total seconds over 60
    when it succeeds.  With the [isodate] grammar the number is
    non-negative for every string that does not begin with a minus sign,
    and ["PT5M30S"] gives 5.5. *)
Theorem parse_duration_defined :
  (forall E d,
      match iso_parse_duration E d with
      | Raise _ => parse_duration E d = PyInt 0
      | Ok dur => exists q, parse_duration E d = PyFloat q
                            /\ (q == Isodate.total_seconds dur / 60)%Q
      end)
  /\ (forall E d, exists q, number_of (parse_duration E d) = Some q)
  /\ (forall E pdt s,
         iso_parse_duration E (PyStr s) = Isodate.parse_duration pdt (PyStr s) ->
         String.prefix "-" s = false ->
         exists q, number_of (parse_duration E (PyStr s)) = Some q /\ (0 <= q)%Q)
  /\ (forall E pdt,
         iso_parse_duration E (PyStr "PT5M30S")
         = Isodate.parse_duration pdt (PyStr "PT5M30S") ->
         parse_duration E (PyStr "PT5M30S") = PyFloat (11 # 2)).
Proof.
  split; [exact parse_duration_cases|]. split; [|split].
  - intros E d. unfold parse_duration.
    destruct (iso_parse_duration E d); eexists; reflexivity.
  - intros E pdt s Hiso Hs. pose proof (parse_duration_cases E (PyStr s)) as H.
    destruct (iso_parse_duration E (PyStr s)) as [dur|e] eqn:Hd.
    + destruct H as (q & -> & Hq). exists q. split; [reflexivity|].
      rewrite Hq. symmetry in Hiso.
      apply (IsodateFacts.isodate_unsigned_nonneg pdt s dur Hs) in Hiso.
      apply IsodateFacts.total_seconds_nonneg in Hiso.
      apply Qle_shift_div_l; [reflexivity|]. now rewrite Qmult_0_l.
    + rewrite H. exists 0%Q. split; [reflexivity | apply Qle_refl].
  - intros E pdt Hiso. unfold parse_duration. rewrite Hiso. reflexivity.
Qed.

Lemma parse_duration_defined_witness :
  exists q, number_of (parse_duration Demo.E (PyStr "PT1H")) = Some q /\ (0 <= q)%Q.
Proof.
  destruct parse_duration_defined as (_ & _ & H & _).
  apply (H Demo.E (fun _ => Raise ValueError) "PT1H"); reflexivity.
Defined.

(** C4, as stated, fails: [isodate] accepts a leading sign, and
    ["-PT5M"] is normalised to -5 minutes. *)
Lemma parse_duration_negative :
  exists q, number_of (parse_duration Demo.E (PyStr "-PT5M")) = Some q /\ (q < 0)%Q.
Proof. exists (-5 # 1)%Q. split; reflexivity. Qed.

(** ** Engagement rate and remote lookup *)

(** *** Engagement rate *)

Lemma truediv_ok (a b : Z) (q : Q) :
  truediv a b = Ok q ->
  b <> 0 /\ float_overflow a b = false /\ (q == inject_Z a / inject_Z b)%Q.
Proof.
  unfold truediv. destruct (Z.eqb_spec b 0) as [->|Hb]; [discriminate|].
  destruct (float_overflow a b); [discriminate|].
  intros [= <-]. repeat split; [exact Hb | apply Qred_correct].
Qed.

Lemma truediv_in_range (a b : Z) :
  b <> 0 -> float_overflow a b = false ->
  exists q, truediv a b = Ok q /\ (q == inject_Z a / inject_Z b)%Q.
Proof.
  intros Hb Hr. unfold truediv. destruct (Z.eqb_spec b 0) as [->|_]; [lia|].
  rewrite Hr. eexists. split; [reflexivity | apply Qred_correct].
Qed.

Lemma truediv_overflow (a b : Z) :
  b <> 0 -> float_overflow a b = true -> truediv a b = Raise OverflowError.
Proof.
  intros Hb Hr. unfold truediv. destruct (Z.eqb_spec b 0) as [->|_]; [lia|].
  now rewrite Hr.
Qed.

Lemma rate_zero (views likes comments : Z) :
  views <= 0 -> Streamlit0.engagement_rate views likes comments = Ok (PyInt 0).
Proof.
  intros Hv. unfold Streamlit0.engagement_rate.
  destruct (Z.ltb_spec 0 views); [lia | reflexivity].
Qed.

Lemma rate_in_range (views likes comments : Z) :
  0 < views -> float_overflow (likes + comments) views = false ->
  exists q, Streamlit0.engagement_rate views likes comments = Ok (PyFloat q)
            /\ (q == inject_Z (likes + comments) / inject_Z views)%Q.
Proof.
  intros Hv Hr. unfold Streamlit0.engagement_rate.
  destruct (Z.ltb_spec 0 views); [|lia].
  destruct (truediv_in_range (likes + comments) views) as (q & -> & Hq);
    [lia | exact Hr |].
  now exists q.
Qed.

Lemma rate_overflow (views likes comments : Z) :
  0 < views -> float_overflow (likes + comments) views = true ->
  Streamlit0.engagement_rate views likes comments = Raise OverflowError.
Proof.
  intros Hv Hr. unfold Streamlit0.engagement_rate.
  destruct (Z.ltb_spec 0 views); [|lia].
  rewrite truediv_overflow; [reflexivity | lia | exact Hr].
Qed.

Lemma rate_ok_derived (views likes comments : Z) (v : pyval) :
  Streamlit0.engagement_rate views likes comments = Ok v ->
  derived_rate views likes comments v.
Proof.
  intros H. split.
  - intros Hv. destruct (float_overflow (likes + comments) views) eqn:Hr.
    + rewrite (rate_overflow _ _ _ Hv Hr) in H. discriminate.
    + destruct (rate_in_range _ _ _ Hv Hr) as (q & Hq & Heq).
      rewrite Hq in H. injection H as <-. now exists q.
  - intros ->. rewrite rate_zero in H by lia. now injection H as <-.
Qed.


(** An integer widget value is far inside the float range. *)
Lemma float_limit_widgets : 2 * max_safe_integer < float_limit.
Proof. vm_compute. reflexivity. Qed.

Lemma widgets_in_range (views likes comments : Z) :
  number_input_value 0 views -> number_input_value 0 likes ->
  number_input_value 0 comments -> 0 < views ->
  float_overflow (likes + comments) views = false.
Proof.
  unfold number_input_value, float_overflow. intros Hv Hl Hc Hpos.
  pose proof float_limit_widgets as Hbig.
  apply Z.leb_gt. rewrite !Z.abs_eq by lia.
  apply Z.lt_le_trans with (m := float_limit * 1); [lia|].
  apply Z.mul_le_mono_nonneg_l; lia.
Qed.

Lemma calc_engagement_rate_unfold (E : env) (stats : pyval) :
  calc_engagement_rate E stats =
  (views ← counter E stats "viewCount";
   likes ← counter E stats "likeCount";
   comments ← counter E stats "commentCount";
   Streamlit0.engagement_rate views likes comments).
Proof.
  unfold calc_engagement_rate, counter, Streamlit0.engagement_rate.
  destruct (get stats "viewCount" (PyInt 0)) as [vc|]; [|reflexivity]. cbn.
  destruct (int (int_of_str E) vc) as [views|]; [|reflexivity]. cbn.
  destruct (get stats "likeCount" (PyInt 0)) as [lc|]; [|reflexivity]. cbn.
  destruct (int (int_of_str E) lc) as [likes|]; [|reflexivity]. cbn.
  destruct (get stats "commentCount" (PyInt 0)) as [cc|]; [|reflexivity]. cbn.
  destruct (int (int_of_str E) cc) as [comments|]; reflexivity.
Qed.

Lemma calc_engagement_rate_counters (E : env) (stats : pyval)
      (views likes comments : Z) :
  counter E stats "viewCount" = Ok views ->
  counter E stats "likeCount" = Ok likes ->
  counter E stats "commentCount" = Ok comments ->
  calc_engagement_rate E stats = Streamlit0.engagement_rate views likes comments.
Proof.
  intros Hv Hl Hc. rewrite calc_engagement_rate_unfold, Hv, Hl, Hc. reflexivity.
Qed.

Lemma calc_engagement_rate_derived (E : env) (stats : pyval)
      (views likes comments : Z) (v : pyval) :
  counter E stats "viewCount" = Ok views ->
  counter E stats "likeCount" = Ok likes ->
  counter E stats "commentCount" = Ok comments ->
  calc_engagement_rate E stats = Ok v ->
  derived_rate views likes comments v.
Proof.
  intros Hv Hl Hc. rewrite (calc_engagement_rate_counters E stats _ _ _ Hv Hl Hc).
  apply rate_ok_derived.
Qed.

(** C1, as stated, fails: one view and [10 ^ 309] likes are counters with
    [views > 0] and non-negative likes and comments, and the division
    raises [OverflowError] instead of returning the quotient. *)
Lemma engagement_rate_overflows :
  counter Demo.E huge_likes "viewCount" = Ok 1
  /\ counter Demo.E huge_likes "likeCount" = Ok (10 ^ 309)
  /\ counter Demo.E huge_likes "commentCount" = Ok 0
  /\ calc_engagement_rate Demo.E huge_likes = Raise OverflowError
  /\ Streamlit0.engagement_rate 1 (10 ^ 309) 0 = Raise OverflowError.
Proof. repeat split; vm_compute; reflexivity. Qed.

(** C1, amended.  Given the counters, [calc_engagement_rate] and the
    expression of [yt_streamlit.py] return exactly 0 when [views = 0];
    when [views > 0] they return [(likes + comments) / views] provided the
    quotient is within the float range (its magnitude below
    [2 ^ 1024 - 2 ^ 970]), and raise [OverflowError] beyond it.  Views 0,
    likes 10, comments 5 give 0 and no division fault. *)
Theorem engagement_rate_contract :
  (forall E stats views likes comments,
      counter E stats "viewCount" = Ok views ->
      counter E stats "likeCount" = Ok likes ->
      counter E stats "commentCount" = Ok comments ->
      (views = 0 -> calc_engagement_rate E stats = Ok (PyInt 0))
      /\ (0 < views -> float_overflow (likes + comments) views = false ->
          exists q, calc_engagement_rate E stats = Ok (PyFloat q)
                    /\ (q == inject_Z (likes + comments) / inject_Z views)%Q)
      /\ (0 < views -> float_overflow (likes + comments) views = true ->
          calc_engagement_rate E stats = Raise OverflowError))
  /\ (forall views likes comments,
         (views = 0
          -> Streamlit0.engagement_rate views likes comments = Ok (PyInt 0))
         /\ (0 < views -> float_overflow (likes + comments) views = false ->
             exists q,
               Streamlit0.engagement_rate views likes comments = Ok (PyFloat q)
               /\ (q == inject_Z (likes + comments) / inject_Z views)%Q)
         /\ (0 < views -> float_overflow (likes + comments) views = true ->
             Streamlit0.engagement_rate views likes comments
             = Raise OverflowError))
  /\ (forall views likes comments,
         float_overflow (likes + comments) views = true
         <-> float_limit * Z.abs views <= Z.abs (likes + comments))
  /\ Streamlit0.engagement_rate 0 10 5 = Ok (PyInt 0)
  /\ calc_engagement_rate Demo.E
       (PyDict (list_to_map [("viewCount", PyStr "0"); ("likeCount", PyStr "10");
                             ("commentCount", PyStr "5")]))
     = Ok (PyInt 0).
Proof.
  assert (forall views likes comments,
             (views = 0
              -> Streamlit0.engagement_rate views likes comments = Ok (PyInt 0))
             /\ (0 < views -> float_overflow (likes + comments) views = false ->
                 exists q,
                   Streamlit0.engagement_rate views likes comments = Ok (PyFloat q)
                   /\ (q == inject_Z (likes + comments) / inject_Z views)%Q)
             /\ (0 < views -> float_overflow (likes + comments) views = true ->
                 Streamlit0.engagement_rate views likes comments
                 = Raise OverflowError)) as Hrate.
  { intros views likes comments. split; [|split].
    - intros ->. now apply rate_zero.
    - apply rate_in_range.
    - apply rate_overflow. }
  split; [|split; [exact Hrate|]].
  - intros E stats views likes comments Hv Hl Hc.
    rewrite (calc_engagement_rate_counters E stats _ _ _ Hv Hl Hc). apply Hrate.
  - split; [|split; [reflexivity | vm_compute; reflexivity]].
    intros views likes comments. unfold float_overflow. apply Z.leb_le.
Qed.

Lemma engagement_rate_contract_witness :
  exists q, calc_engagement_rate Demo.E Demo.statistics = Ok (PyFloat q)
            /\ (q == inject_Z (100 + 50) / inject_Z 1000)%Q.
Proof.
  destruct (proj1 engagement_rate_contract Demo.E Demo.statistics 1000 100 50)
    as (_ & H & _); try (vm_compute; reflexivity).
  apply H; [lia | vm_compute; reflexivity].
Defined.

(** *** The remote lookup *)

Lemma counter_unfold (E : env) (stats v : pyval) (key : string) (z : Z) :
  get stats key (PyInt 0) = Ok v -> int (int_of_str E) v = Ok z ->
  counter E stats key = Ok z.
Proof. unfold counter. intros -> Hint. exact Hint. Qed.

(** What a successful lookup went through. *)
Lemma video_stats_body_inv (E : env) (video_id : string) (d : gmap string pyval) :
  video_stats_body E video_id = Ok (Some d) ->
  exists response items video stats snippet details duration channel_id
         subscribers country views likes comments engagement category,
    build E = Ok tt
    /\ videos_list E video_id = Ok response
    /\ getitem response "items" = Ok items /\ truthy items = true
    /\ item0 items = Ok video
    /\ getitem video "statistics" = Ok stats
    /\ getitem video "snippet" = Ok snippet
    /\ getitem video "contentDetails" = Ok details
    /\ getitem details "duration" = Ok duration
    /\ get snippet "channelId" PyNone = Ok channel_id
    /\ channel_info E channel_id = Ok (subscribers, country)
    /\ counter E stats "viewCount" = Ok views
    /\ counter E stats "likeCount" = Ok likes
    /\ counter E stats "commentCount" = Ok comments
    /\ calc_engagement_rate E stats = Ok engagement
    /\ get snippet "categoryId" (PyStr "22") = Ok category
    /\ d = <["views" := PyInt views]> (
           <["likes" := PyInt likes]> (
           <["comments" := PyInt comments]> (
           <["watch_time_minutes" := PyInt (views * 5)]> (
           <["video_length_minutes" := parse_duration E duration]> (
           <["engagement_rate" := engagement]> (
           <["subscribers" := PyInt subscribers]> (
           <["category" := category]> (
           <["country" := country]> (
           <["device" := PyStr "Mobile"]> ∅))))))))).
Proof.
  unfold video_stats_body. intros H.
  bind_inv H. destruct a. rename Ha into Hbuild.
  bind_inv H. rename a into response, Ha into Hresp.
  bind_inv H. rename a into items0, Ha into Hitems0.
  destruct (truthy items0) eqn:Htruthy; [|discriminate]. cbn [negb] in H.
  bind_inv H. rename a into items, Ha into Hitems.
  assert (items0 = items) as ->.
  { unfold get, getitem in *. destruct response; try discriminate.
    destruct (d0 !! "items"); congruence. }
  bind_inv H. rename a into video, Ha into Hvideo.
  bind_inv H. rename a into stats, Ha into Hstats.
  bind_inv H. rename a into snippet, Ha into Hsnippet.
  bind_inv H. rename a into details, Ha into Hdetails.
  bind_inv H. rename a into duration, Ha into Hduration.
  bind_inv H. rename a into channel_id, Ha into Hcid.
  bind_inv H. destruct a as [subscribers country]. rename Ha into Hchannel.
  bind_inv H. rename a into vc, Ha into Hvc.
  bind_inv H. rename a into views, Ha into Hviews.
  bind_inv H. rename a into lc, Ha into Hlc.
  bind_inv H. rename a into likes, Ha into Hlikes.
  bind_inv H. rename a into cc, Ha into Hcc.
  bind_inv H. rename a into comments, Ha into Hcomments.
  bind_inv H. rename a into vc', Ha into Hvc'.
  bind_inv H. rename a into views', Ha into Hviews'.
  bind_inv H. rename a into engagement, Ha into Hengagement.
  bind_inv H. rename a into category, Ha into Hcategory.
  assert (views' = views) as -> by congruence.
  injection H as <-.
  exists response, items, video, stats, snippet, details, duration, channel_id,
    subscribers, country, views, likes, comments, engagement, category.
  repeat (split; [first [assumption | eapply counter_unfold; eassumption | reflexivity]|]).
  reflexivity.
Qed.

(** An option known to be [Some] is [Some] of its content. *)
Lemma some_content {A} (x : option A) (dflt : A) :
  (match x with Some _ => true | None => false end) = true ->
  x = Some (match x with Some a => a | None => dflt end).
Proof. destruct x; [reflexivity | discriminate]. Qed.

Lemma get_video_stats_some (E : env) (video_id : string) (d : gmap string pyval) :
  fst (get_video_stats E video_id) = Some d ->
  video_stats_body E video_id = Ok (Some d).
Proof.
  unfold get_video_stats.
  destruct (video_stats_body E video_id) as [[d'|]|e]; simpl; congruence.
Qed.

Lemma get_video_stats_shown (E : env) (video_id : string) :
  snd (get_video_stats E video_id) = []
  \/ exists e, get_video_stats E video_id = (None, [ErrApi e]).
Proof.
  unfold get_video_stats.
  destruct (video_stats_body E video_id) as [r|e]; [now left | right; now exists e].
Qed.

(** C9. In every record the lookup returns, engagement_rate is derived
    from the views, likes and comments stored in the same record. *)
Theorem get_video_stats_rate_invariant (E : env) (video_id : string)
        (d : gmap string pyval) :
  fst (get_video_stats E video_id) = Some d ->
  exists views likes comments rate,
    d !! "views" = Some (PyInt views)
    /\ d !! "likes" = Some (PyInt likes)
    /\ d !! "comments" = Some (PyInt comments)
    /\ d !! "engagement_rate" = Some rate
    /\ derived_rate views likes comments rate.
Proof.
  intros H. apply get_video_stats_some, video_stats_body_inv in H
    as (response & items & video & stats & snippet & details & duration & channel_id
        & subscribers & country & views & likes & comments & engagement & category
        & _ & _ & _ & _ & _ & _ & _ & _ & _ & _ & _ & Hv & Hl & Hc & Hrate & _ & ->).
  exists views, likes, comments, engagement.
  repeat (split; [reflexivity|]).
  exact (calc_engagement_rate_derived E stats views likes comments engagement
           Hv Hl Hc Hrate).
Qed.

Lemma get_video_stats_rate_invariant_witness :
  fst (get_video_stats Demo.E "dQw4w9WgXcQ") = Some Demo.fetched
  /\ exists views likes comments rate,
    Demo.fetched !! "views" = Some (PyInt views)
    /\ Demo.fetched !! "likes" = Some (PyInt likes)
    /\ Demo.fetched !! "comments" = Some (PyInt comments)
    /\ Demo.fetched !! "engagement_rate" = Some rate
    /\ derived_rate views likes comments rate.
Proof.
  assert (fst (get_video_stats Demo.E "dQw4w9WgXcQ") = Some Demo.fetched) as Hd
    by (apply some_content; vm_compute; reflexivity).
  split; [exact Hd|].
  exact (get_video_stats_rate_invariant Demo.E "dQw4w9WgXcQ" Demo.fetched Hd).
Defined.

Lemma channel_info_default (E : env) (sn : gmap string pyval) (cid : pyval)
      (subscribers : Z) (country : pyval) :
  channel_incomplete E sn ->
  get (PyDict sn) "channelId" PyNone = Ok cid ->
  channel_info E cid = Ok (subscribers, country) ->
  country = PyStr "US".
Proof.
  intros Hinc Hcid. cbn in Hcid. unfold channel_info.
  destruct Hinc as [Hnone | cid' resp Hsn Htr Hresp Hitems
                   | cid' resp info rest csn Hsn Htr Hresp Hitems Hinfo Hcountry].
  - destruct (sn !! "channelId") as [c|].
    + injection Hcid as <-. rewrite Hnone. now intros [= _ <-].
    + injection Hcid as <-. now intros [= _ <-].
  - rewrite Hsn in Hcid. injection Hcid as <-. rewrite Htr, Hresp. cbn.
    destruct (resp !! "items") as [v|]; cbn; [rewrite Hitems|]; now intros [= _ <-].
  - rewrite Hsn in Hcid. injection Hcid as <-. rewrite Htr, Hresp. cbn.
    rewrite Hitems. cbn. rewrite Hinfo. cbn.
    destruct (info !! "statistics") as [cstats|]; [|discriminate]. cbn.
    destruct (get cstats "subscriberCount" (PyInt 0)) as [sc|]; [|discriminate]. cbn.
    destruct (int (int_of_str E) sc) as [z|]; [|discriminate]. cbn.
    rewrite Hcountry. now intros [= _ <-].
Qed.

(** C7, as stated, fails for the category: its default does not depend on
    the channel data.  A video that names no channel, so that the channel
    data is incomplete, and whose snippet has categoryId ["10"] gets
    category ["10"], not ["22"]. *)
Lemma category_default_not_from_channel :
  fst (get_video_stats Demo.E "music_video") = Some Demo.fetched_music
  /\ (v ← first_video Demo.E "music_video"; getitem v "snippet")
     = Ok (PyDict Demo.music_snippet)
  /\ channel_incomplete Demo.E Demo.music_snippet
  /\ Demo.fetched_music !! "category" = Some (PyStr "10")
  /\ Demo.fetched_music !! "category" <> Some (PyStr "22").
Proof.
  split; [apply some_content; vm_compute; reflexivity|].
  split; [reflexivity|].
  split; [apply no_channel_id; vm_compute; exact I|].
  assert (Demo.fetched_music !! "category" = Some (PyStr "10")) as ->
    by (vm_compute; reflexivity).
  split; [reflexivity | discriminate].
Qed.

(** C7, amended.  In every record a successful lookup returns,
    watch_time_minutes is the view count times 5, the country is ["US"]
    when the channel data gives none, and the category is ["22"] (People &
    Blogs) when the video's snippet names none. *)
Theorem get_video_stats_defaults (E : env) (video_id : string)
        (d : gmap string pyval) :
  fst (get_video_stats E video_id) = Some d ->
  exists video stats sn views,
    first_video E video_id = Ok video
    /\ getitem video "statistics" = Ok stats
    /\ getitem video "snippet" = Ok (PyDict sn)
    /\ counter E stats "viewCount" = Ok views
    /\ d !! "views" = Some (PyInt views)
    /\ d !! "watch_time_minutes" = Some (PyInt (views * 5))
    /\ (channel_incomplete E sn -> d !! "country" = Some (PyStr "US"))
    /\ (sn !! "categoryId" = None -> d !! "category" = Some (PyStr "22")).
Proof.
  intros H. apply get_video_stats_some, video_stats_body_inv in H
    as (response & items & video & stats & snippet & details & duration & channel_id
        & subscribers & country & views & likes & comments & engagement & category
        & _ & Hresp & Hitems & _ & Hvideo & Hstats & Hsnippet & _ & _ & Hcid
        & Hchannel & Hv & _ & _ & _ & Hcat & ->).
  destruct snippet as [| | | | | |sn]; try discriminate.
  exists video, stats, sn, views.
  split; [unfold first_video; now rewrite Hresp; cbn; rewrite Hitems|].
  repeat (split; [first [assumption | reflexivity]|]).
  split.
  - intros Hinc.
    rewrite (channel_info_default E sn channel_id subscribers country Hinc Hcid Hchannel).
    reflexivity.
  - intros Hnone. cbn in Hcat. rewrite Hnone in Hcat. injection Hcat as <-. reflexivity.
Qed.

Lemma get_video_stats_defaults_witness :
  fst (get_video_stats Demo.E "bare_video1") = Some Demo.fetched_bare
  /\ exists video stats sn views,
    first_video Demo.E "bare_video1" = Ok video
    /\ getitem video "statistics" = Ok stats
    /\ getitem video "snippet" = Ok (PyDict sn)
    /\ counter Demo.E stats "viewCount" = Ok views
    /\ Demo.fetched_bare !! "views" = Some (PyInt views)
    /\ Demo.fetched_bare !! "watch_time_minutes" = Some (PyInt (views * 5))
    /\ (channel_incomplete Demo.E sn ->
        Demo.fetched_bare !! "country" = Some (PyStr "US"))
    /\ (sn !! "categoryId" = None ->
        Demo.fetched_bare !! "category" = Some (PyStr "22")).
Proof.
  assert (fst (get_video_stats Demo.E "bare_video1") = Some Demo.fetched_bare) as Hd
    by (apply some_content; vm_compute; reflexivity).
  split; [exact Hd|].
  exact (get_video_stats_defaults Demo.E "bare_video1" Demo.fetched_bare Hd).
Defined.

Lemma lookup_failure_none (E : env) (video_id : string) :
  lookup_failure E video_id -> fst (get_video_stats E video_id) = None.
Proof.
  intros Hfail. destruct (fst (get_video_stats E video_id)) as [d|] eqn:Hd; [|reflexivity].
  exfalso. apply get_video_stats_some in Hd. pose proof Hd as Hbody.
  apply video_stats_body_inv in Hd
    as (response & items & video & stats & snippet & details & duration & channel_id
        & subscribers & country & views & likes & comments & engagement & category
        & Hbuild & Hresp & Hitems & Htruthy & Hvideo & _ & Hsnippet & _ & _ & Hcid
        & Hchannel & _).
  destruct Hfail as [e Hraise | e Hb | e _ Hv | d0 _ Hv Hno
                    | d0 video0 v cid e _ Hv Hit Hsn Htr Hch].
  - congruence.
  - congruence.
  - congruence.
  - rewrite Hv in Hresp. injection Hresp as <-. cbn in Hitems.
    destruct (d0 !! "items") as [it|]; [|discriminate].
    injection Hitems as <-. congruence.
  - rewrite Hv in Hresp. injection Hresp as <-. cbn in Hitems.
    rewrite Hit in Hitems. injection Hitems as <-.
    cbn in Hvideo. injection Hvideo as <-. cbn in Hsnippet.
    destruct (video0 !! "snippet") as [[| | | | | |sn]|]; try contradiction.
    injection Hsnippet as <-. cbn in Hcid. rewrite Hsn in Hcid.
    injection Hcid as <-. unfold channel_info in Hchannel.
    rewrite Htr, Hch in Hchannel. discriminate.
Qed.

(** *** The link handler on a failed lookup *)

Lemma extract_video_id_inv (url t : string) :
  extract_video_id url = Some t ->
  valid_id t /\ exists pre post, url = pre ++ t ++ post.
Proof.
  intros H. rewrite extract_find_id in H.
  apply find_id_leftmost in H as (i & Hocc & _).
  destruct Hocc as (pre & sep & post & -> & _ & _ & Hvalid).
  split; [exact Hvalid|]. exists (pre ++ sep), post. now rewrite append_assoc.
Qed.

Lemma valid_id_truthy (t : string) : valid_id t -> truthy (PyStr t) = true.
Proof. intros [Hlen _]. destruct t; [discriminate | reflexivity]. Qed.

Lemma predicted_app (l1 l2 : list ui_event) :
  Streamlit1.predicted (l1 ++ l2)%list
  = Streamlit1.predicted l1 || Streamlit1.predicted l2.
Proof. apply existsb_app. Qed.

Lemma get_video_stats_not_predicted (E : env) (video_id : string) :
  Streamlit1.predicted (snd (get_video_stats E video_id)) = false.
Proof.
  destruct (get_video_stats_shown E video_id) as [-> | [e ->]]; reflexivity.
Qed.

Lemma submit_link_handler_failed (E : env) (ss : gmap string pyval)
      (url video_id : string) :
  extract_video_id url = Some video_id ->
  fst (get_video_stats E video_id) = None ->
  exists shown,
    Streamlit1.submit_link_handler E ss url = (ss, shown)
    /\ last shown = Some ErrCouldNotFetch
    /\ Streamlit1.predicted shown = false.
Proof.
  intros Hid Hnone. unfold Streamlit1.submit_link_handler. rewrite Hid.
  apply extract_video_id_inv in Hid as [Hvalid _].
  rewrite (valid_id_truthy _ Hvalid). cbn [negb].
  destruct (get_video_stats_shown E video_id) as [Hshown | [e Hshown]].
  - destruct (get_video_stats E video_id) as [stats shown]. simpl in *. subst.
    eexists. split; [reflexivity|]. split; reflexivity.
  - rewrite Hshown. eexists. split; [reflexivity|]. split; reflexivity.
Qed.

(** C6. On a transport or data-absence failure (no client, a failed video
    query, no such video, a failed channel query) [get_video_stats] returns
    [None] without raising; the link handler then shows its error, leaves
    the session state as it was and predicts nothing, and a run that
    started without a stored record ends without one. *)
Theorem lookup_failure_reported (E : env) (video_id : string) :
  lookup_failure E video_id ->
  fst (get_video_stats E video_id) = None
  /\ (forall ss url,
         extract_video_id url = Some video_id ->
         exists shown,
           Streamlit1.submit_link_handler E ss url = (ss, shown)
           /\ last shown = Some ErrCouldNotFetch
           /\ Streamlit1.predicted shown = false)
  /\ (forall ss f,
         extract_video_id (Streamlit1.url f) = Some video_id ->
         Streamlit1.submit_link f = true ->
         ss !! "video_stats" = None ->
         exists shown,
           Streamlit1.link_mode E ss f = Ok (ss, shown)
           /\ last shown = Some ErrCouldNotFetch
           /\ Streamlit1.predicted shown = false).
Proof.
  intros Hfail. pose proof (lookup_failure_none E video_id Hfail) as Hnone.
  split; [exact Hnone|]. split.
  - intros ss url Hid. exact (submit_link_handler_failed E ss url video_id Hid Hnone).
  - intros ss f Hid Hsubmit Hss.
    destruct (submit_link_handler_failed E ss _ _ Hid Hnone) as (shown & Hh & Hlast & Hp).
    exists shown. unfold Streamlit1.link_mode. rewrite Hsubmit, Hh.
    unfold Streamlit1.customize. rewrite Hss. cbn.
    rewrite app_nil_r. auto.
Qed.

Lemma lookup_failure_reported_witness :
  lookup_failure Demo.E "quota_error"
  /\ fst (get_video_stats Demo.E "quota_error") = None.
Proof.
  assert (lookup_failure Demo.E "quota_error") as Hfail
    by (apply (video_query_failed _ _ (HttpError "quotaExceeded")); reflexivity).
  split; [exact Hfail|].
  exact (proj1 (lookup_failure_reported Demo.E "quota_error" Hfail)).
Defined.

(** ** Category translation *)

Lemma category_map_values :
  map_Forall (fun _ label => label ∈ vocabulary) category_map.
Proof.
  unfold category_map, vocabulary.
  repeat (apply map_Forall_insert_2; [set_solver|]).
  apply map_Forall_empty.
Qed.

Lemma category_map_unknown (code : string) :
  code ∉ ["1"; "2"; "10"; "20"; "22"; "23"; "24"; "27"; "28"] ->
  category_map !! code = None.
Proof.
  intros Hcode. apply not_elem_of_dom. unfold category_map.
  rewrite !dom_insert_L, dom_empty_L. set_solver.
Qed.

(** C5. Category translation is total into the six-category vocabulary:
    the nine known codes map as the table says, every other code maps to
    Entertainment; ["20"] gives Gaming and ["99"] gives Entertainment. *)
Theorem translate_category_total :
  (forall code, translate_category code ∈ vocabulary)
  /\ (forall code,
         code ∉ ["1"; "2"; "10"; "20"; "22"; "23"; "24"; "27"; "28"] ->
         translate_category code = "Entertainment")
  /\ (translate_category "1" = "Entertainment"
      /\ translate_category "2" = "Tech"
      /\ translate_category "10" = "Music"
      /\ translate_category "20" = "Gaming"
      /\ translate_category "22" = "Lifestyle"
      /\ translate_category "23" = "Entertainment"
      /\ translate_category "24" = "Entertainment"
      /\ translate_category "27" = "Education"
      /\ translate_category "28" = "Tech")
  /\ translate_category "99" = "Entertainment".
Proof.
  split; [|split; [|split]].
  - intros code. unfold translate_category.
    destruct (category_map !! code) as [label|] eqn:H.
    + exact (category_map_values code label H).
    + unfold vocabulary. set_solver.
  - intros code Hcode. unfold translate_category.
    now rewrite (category_map_unknown code Hcode).
  - repeat split; vm_compute; reflexivity.
  - vm_compute. reflexivity.
Qed.

Lemma translate_category_total_witness :
  ("99" ∉ ["1"; "2"; "10"; "20"; "22"; "23"; "24"; "27"; "28"])
  /\ translate_category "99" = "Entertainment".
Proof.
  assert ("99" ∉ ["1"; "2"; "10"; "20"; "22"; "23"; "24"; "27"; "28"]) as Hcode
    by (rewrite list_elem_of_In; simpl; intuition discriminate).
  split; [exact Hcode|].
  exact (proj1 (proj2 translate_category_total) "99" Hcode).
Defined.

(** ** The manual forms *)

Lemma manual_record_rate (f : Streamlit1.manual_form) :
  Streamlit1.manual_record f !! "engagement_rate"
  = Some (PyFloat (Streamlit1.engagement_rate f)).
Proof. reflexivity. Qed.

Lemma record_rate (f : Streamlit0.form) :
  exists row rate,
    Streamlit0.record f = Ok row
    /\ row !! "engagement_rate" = Some rate
    /\ derived_rate (Streamlit0.views f) (Streamlit0.likes f)
         (Streamlit0.comments f) rate.
Proof.
  assert (exists rate, Streamlit0.engagement_rate (Streamlit0.views f)
                         (Streamlit0.likes f) (Streamlit0.comments f) = Ok rate)
    as (rate & Hrate).
  { destruct (Z.ltb_spec 0 (Streamlit0.views f)) as [Hv|Hv].
    - destruct (rate_in_range (Streamlit0.views f) (Streamlit0.likes f)
                  (Streamlit0.comments f) Hv) as (q & Hq & _).
      + apply widgets_in_range;
          [apply Streamlit0.views_input | apply Streamlit0.likes_input
           | apply Streamlit0.comments_input | exact Hv].
      + exists (PyFloat q). exact Hq.
    - eexists. now apply rate_zero. }
  unfold Streamlit0.record. rewrite Hrate.
  eexists. exists rate. split; [reflexivity|]. split; [reflexivity|].
  now apply rate_ok_derived.
Qed.

Example submission_rate :
  exists row, Streamlit0.record Demo.submission = Ok row
              /\ row !! "engagement_rate" = Some (PyFloat (3 # 20)).
Proof.
  assert (Streamlit0.engagement_rate 1000 100 50 = Ok (PyFloat (3 # 20))) as Hrate
    by (vm_compute; reflexivity).
  unfold Streamlit0.record. cbn [Demo.submission Streamlit0.views Streamlit0.likes
                                  Streamlit0.comments].
  rewrite Hrate. eexists. split; [reflexivity|].
  now rewrite !lookup_insert_ne, lookup_insert_eq by discriminate.
Qed.

(** C2, as stated, fails on [yt_streamlit1.py]: the manual form has its
    own "Engagement Rate" field.  With views 100, likes 10, comments 5 and
    0.9 entered there, the record carries 0.9, not 0.15. *)
Lemma manual_rate_not_derived :
  ~ (forall f : Streamlit1.manual_form,
        Streamlit1.form_valid f ->
        exists rate,
          Streamlit1.manual_record f !! "engagement_rate" = Some rate
          /\ derived_rate (Streamlit1.views f) (Streamlit1.likes f)
               (Streamlit1.comments f) rate).
Proof.
  intros H. destruct (H Demo.manual_entry) as (rate & Hrate & Hderived & _).
  - unfold Streamlit1.form_valid, Demo.manual_entry. simpl.
    repeat split; try lia; discriminate.
  - rewrite manual_record_rate in Hrate. injection Hrate as <-.
    destruct Hderived as (q & [= <-] & Hq); [reflexivity|].
    vm_compute in Hq. discriminate.
Qed.

(** C2, amended.  In [yt_streamlit1.py] the manual record's
    engagement_rate is the value of the form's "Engagement Rate" field,
    handed to the predictor unchanged; in [yt_streamlit.py] it is
    recomputed from the submitted counters, [(likes + comments) / views]
    and 0 without views, and the predictor gets that row. *)
Theorem manual_engagement_rate :
  (forall E (f : Streamlit1.manual_form),
      Streamlit1.manual_record f !! "engagement_rate"
      = Some (PyFloat (Streamlit1.engagement_rate f))
      /\ Streamlit1.manual_mode E f
         = if Streamlit1.submit_manual f
           then [Estimate (predict E (Streamlit1.manual_record f))] else [])
  /\ (forall E (f : Streamlit0.form),
         exists row rate,
           Streamlit0.record f = Ok row
           /\ row !! "engagement_rate" = Some rate
           /\ derived_rate (Streamlit0.views f) (Streamlit0.likes f)
                (Streamlit0.comments f) rate
           /\ Streamlit0.run E f
              = Ok (if Streamlit0.predict_button f
                    then [Estimate (predict E row)] else [])).
Proof.
  split.
  - intros E f. split; [apply manual_record_rate | reflexivity].
  - intros E f. destruct (record_rate f) as (row & rate & Hrow & Hrate & Hd).
    exists row, rate. repeat (split; [assumption|]).
    unfold Streamlit0.run. rewrite Hrow. cbn.
    destruct (Streamlit0.predict_button f); reflexivity.
Qed.

(** ** The session state *)

Lemma submit_link_handler_not_predicted (E : env) (ss : gmap string pyval)
      (url : string) :
  Streamlit1.predicted (snd (Streamlit1.submit_link_handler E ss url)) = false.
Proof.
  unfold Streamlit1.submit_link_handler.
  destruct (extract_video_id url) as [video_id|]; [|reflexivity].
  destruct (negb (truthy (PyStr video_id))); [reflexivity|].
  pose proof (get_video_stats_not_predicted E video_id) as Hp.
  destruct (get_video_stats E video_id) as [[d|] shown]; simpl in Hp;
    [destruct (truthy (PyDict d))|]; simpl;
    rewrite predicted_app, Hp; reflexivity.
Qed.

(** The handler changes the session state at ["video_stats"] only, and
    never removes the record. *)
Lemma submit_link_handler_state (E : env) (ss : gmap string pyval) (url : string) :
  fst (Streamlit1.submit_link_handler E ss url) = ss
  \/ exists d, fst (Streamlit1.submit_link_handler E ss url)
               = <["video_stats" := PyDict d]> ss.
Proof.
  unfold Streamlit1.submit_link_handler.
  destruct (extract_video_id url) as [video_id|]; [|now left].
  destruct (negb (truthy (PyStr video_id))); [now left|].
  destruct (get_video_stats E video_id) as [[d|] shown]; [|now left].
  destruct (truthy (PyDict d)); [|now left].
  right. eexists. reflexivity.
Qed.

(** What a run of the customisation block does. *)
Lemma customize_inv (E : env) (ss ss' : gmap string pyval)
      (f : Streamlit1.link_form) (shown : list ui_event) :
  Streamlit1.customize E ss f = Ok (ss', shown) ->
  (ss !! "video_stats" = None /\ ss' = ss /\ shown = [])
  \/ exists d country category device,
       ss !! "video_stats" = Some (PyDict d)
       /\ ss' = <["video_stats" :=
                   PyDict (<["device" := PyStr device]> (
                           <["category" := PyStr category]> (
                           <["country" := PyStr country]> d)))]> ss
       /\ (Streamlit1.predicted shown = true -> Streamlit1.predict_button f = true).
Proof.
  unfold Streamlit1.customize. intros H.
  destruct (ss !! "video_stats") as [stats|] eqn:Hss.
  - right. bind_inv H. bind_inv H.
    destruct stats as [| | | | | |d]; try discriminate.
    exists d. do 3 eexists. split; [reflexivity|].
    destruct (Streamlit1.predict_button f); injection H as <- <-;
      (split; [reflexivity|]); [reflexivity | discriminate].
  - left. injection H as <- <-. auto.
Qed.

Lemma link_mode_retains (E : env) (ss ss' : gmap string pyval)
      (f : Streamlit1.link_form) (shown : list ui_event) :
  Streamlit1.link_mode E ss f = Ok (ss', shown) ->
  (is_Some (ss !! "video_stats") \/ Streamlit1.predicted shown = true) ->
  is_Some (ss' !! "video_stats").
Proof.
  unfold Streamlit1.link_mode. intros H Hpre.
  assert (exists ss1 shown1,
    (if Streamlit1.submit_link f
     then Streamlit1.submit_link_handler E ss (Streamlit1.url f)
     else (ss, [])) = (ss1, shown1)
    /\ (is_Some (ss !! "video_stats") -> is_Some (ss1 !! "video_stats"))
    /\ Streamlit1.predicted shown1 = false) as (ss1 & shown1 & Hstep & Hkeep & Hnp).
  { destruct (Streamlit1.submit_link f).
    - pose proof (submit_link_handler_state E ss (Streamlit1.url f)) as Hst.
      pose proof (submit_link_handler_not_predicted E ss (Streamlit1.url f)) as Hp.
      destruct (Streamlit1.submit_link_handler E ss (Streamlit1.url f)) as [ss1 shown1].
      exists ss1, shown1. simpl in *. split; [reflexivity|]. split; [|exact Hp].
      destruct Hst as [-> | [d ->]]; [auto|].
      intros _. rewrite lookup_insert_eq. eauto.
    - exists ss, []. auto. }
  rewrite Hstep in H. bind_inv H. destruct a as [ss2 shown2].
  injection H as <- <-.
  apply customize_inv in Ha
    as [(Hnone & -> & ->) | (d & c & k & dv & Hsome & -> & Hp)].
  - destruct Hpre as [Hsome | Hpred].
    + apply Hkeep in Hsome. rewrite Hnone in Hsome. now destruct Hsome.
    + rewrite predicted_app, Hnp in Hpred. discriminate.
  - rewrite lookup_insert_eq. eauto.
Qed.

Lemma link_mode_other_keys (E : env) (ss ss' : gmap string pyval)
      (f : Streamlit1.link_form) (shown : list ui_event) (key : string) :
  Streamlit1.link_mode E ss f = Ok (ss', shown) ->
  key <> "video_stats" -> ss' !! key = ss !! key.
Proof.
  unfold Streamlit1.link_mode. intros H Hkey.
  assert (forall ss1 shown1,
    (if Streamlit1.submit_link f
     then Streamlit1.submit_link_handler E ss (Streamlit1.url f)
     else (ss, [])) = (ss1, shown1) -> ss1 !! key = ss !! key) as Hstep.
  { intros ss1 shown1. destruct (Streamlit1.submit_link f).
    - pose proof (submit_link_handler_state E ss (Streamlit1.url f)) as Hst.
      intros Heq. rewrite Heq in Hst. simpl in Hst.
      destruct Hst as [-> | [d ->]]; [reflexivity|].
      now rewrite lookup_insert_ne.
    - now intros [= <- _]. }
  destruct (if Streamlit1.submit_link f then _ else _) as [ss1 shown1].
  specialize (Hstep ss1 shown1 eq_refl).
  bind_inv H. destruct a as [ss2 shown2]. injection H as <- <-.
  apply customize_inv in Ha
    as [(_ & -> & _) | (d & c & k & dv & _ & -> & _)]; [exact Hstep|].
  now rewrite lookup_insert_ne.
Qed.

Lemma link_mode_predicts (E : env) (ss : gmap string pyval)
      (f : Streamlit1.link_form) (d : gmap string pyval) (c k : pyval) :
  ss !! "video_stats" = Some (PyDict d) ->
  d !! "country" = Some c -> d !! "category" = Some k ->
  Streamlit1.submit_link f = false -> Streamlit1.predict_button f = true ->
  exists ss' shown,
    Streamlit1.link_mode E ss f = Ok (ss', shown)
    /\ Streamlit1.predicted shown = true.
Proof.
  intros Hss Hc Hk Hsubmit Hpredict.
  unfold Streamlit1.link_mode, Streamlit1.customize.
  rewrite Hsubmit, Hss. cbn. rewrite Hc, Hk. cbn. rewrite Hpredict. cbn.
  do 2 eexists. split; reflexivity.
Qed.

(** * Further properties *)

(** ** Identifier extraction on the usual URL forms *)

Lemma find_id_skip (c : ascii) (s : string) :
  id_at (String c s) = None -> find_id (String c s) = find_id s.
Proof. intros H. cbn [find_id]. now rewrite H. Qed.

Lemma id_at_after_v (t post : string) :
  valid_id t -> id_at (String "v" (String "=" (t ++ post))) = Some t.
Proof.
  intros [Hlen Hall]. pose proof (take_class_complete id_class t post Hall) as H.
  rewrite Hlen in H. cbn [id_at]. now rewrite H.
Qed.

Lemma id_at_after_slash (t post : string) :
  valid_id t -> id_at (String "/" (t ++ post)) = Some t.
Proof.
  intros [Hlen Hall]. pose proof (take_class_complete id_class t post Hall) as H.
  rewrite Hlen in H. cbn [id_at]. now rewrite H.
Qed.

(** Walks [find_id] over a literal prefix in which nothing matches. *)
Ltac skip_prefix :=
  rewrite extract_find_id, ?append_cons, ?append_nil;
  repeat (rewrite find_id_skip by reflexivity);
  cbn [find_id].

(** X1. For every valid identifier and whatever follows it, the watch,
    short, embed and shorts URL forms give back exactly the identifier. *)
Theorem extract_video_id_url_forms (t post : string) :
  valid_id t ->
  extract_video_id ("https://www.youtube.com/watch?v=" ++ t ++ post) = Some t
  /\ extract_video_id ("https://youtu.be/" ++ t ++ post) = Some t
  /\ extract_video_id ("https://www.youtube.com/embed/" ++ t ++ post) = Some t
  /\ extract_video_id ("https://www.youtube.com/shorts/" ++ t ++ post) = Some t.
Proof.
  intros Ht. repeat split; skip_prefix.
  - now rewrite id_at_after_v.
  - now rewrite id_at_after_slash.
  - now rewrite id_at_after_slash.
  - now rewrite id_at_after_slash.
Qed.

Lemma extract_video_id_url_forms_witness :
  valid_id "dQw4w9WgXcQ"
  /\ extract_video_id ("https://youtu.be/" ++ "dQw4w9WgXcQ" ++ "?t=42")
     = Some "dQw4w9WgXcQ".
Proof.
  assert (valid_id "dQw4w9WgXcQ") as Ht by (split; reflexivity).
  split; [exact Ht|].
  exact (proj1 (proj2 (extract_video_id_url_forms "dQw4w9WgXcQ" "?t=42" Ht))).
Defined.

(** ** What extraction rejects *)

Lemma all_in_class_append (ranges : list (ascii * ascii)) (a b : string) :
  all_in_class ranges (a ++ b)
  = all_in_class ranges a && all_in_class ranges b.
Proof.
  induction a as [|c a IH]; [reflexivity|].
  rewrite append_cons. simpl. now rewrite IH, andb_assoc.
Qed.

Lemma occurs_at_length (s : string) (i : nat) (t : string) :
  occurs_at s i t -> (i + 12 <= String.length s)%nat.
Proof.
  intros (pre & sep & post & -> & <- & Hsep & Hlen & _).
  rewrite !length_append, Hlen. destruct Hsep as [-> | ->]; simpl; lia.
Qed.

Lemma occurs_at_separator (s : string) (i : nat) (t : string) :
  occurs_at s i t -> all_in_class id_class s = false.
Proof.
  intros (pre & sep & post & -> & _ & Hsep & _).
  rewrite !all_in_class_append.
  destruct Hsep as [-> | ->]; cbn [all_in_class];
    destruct (all_in_class id_class pre); reflexivity.
Qed.

(** X2. Extraction needs a separator before the identifier: a string of
    fewer than 12 characters gives nothing, and neither does a string made
    of identifier characters only, such as a bare identifier. *)
Theorem extract_video_id_rejects (url : string) :
  (String.length url < 12)%nat \/ all_in_class id_class url = true ->
  extract_video_id url = None.
Proof.
  intros H. rewrite extract_find_id. apply find_id_none. intros i t Hocc.
  destruct H as [Hshort | Hbare].
  - apply occurs_at_length in Hocc. lia.
  - apply occurs_at_separator in Hocc. congruence.
Qed.

Lemma extract_video_id_rejects_witness :
  all_in_class id_class "dQw4w9WgXcQ" = true
  /\ extract_video_id "dQw4w9WgXcQ" = None.
Proof.
  assert (all_in_class id_class "dQw4w9WgXcQ" = true) as H by reflexivity.
  split; [exact H|].
  exact (extract_video_id_rejects "dQw4w9WgXcQ" (or_intror H)).
Defined.

(** ** The engagement-rate calculator at its edges *)



Lemma counter_absent (E : env) (m : gmap string pyval) (key : string) :
  m !! key = None -> counter E (PyDict m) key = Ok 0.
Proof. intros H. unfold counter, get. now rewrite H. Qed.



Lemma counter_insert_zero (E : env) (m : gmap string pyval) (key key' : string) :
  m !! key = None ->
  counter E (PyDict (<[key := PyInt 0]> m)) key' = counter E (PyDict m) key'.
Proof.
  intros H. unfold counter, get. cbn. destruct (decide (key = key')) as [<-|Hne].
  - now rewrite lookup_insert_eq, H.
  - now rewrite lookup_insert_ne.
Qed.

(** X4. A counter that is absent from [stats] is read as 0: writing 0 under
    a missing key never changes the result, and without a [viewCount] the
    rate is 0 whenever the other two counters convert. *)
Theorem calc_engagement_rate_absent (E : env) (m : gmap string pyval) :
  (forall key, m !! key = None ->
               calc_engagement_rate E (PyDict (<[key := PyInt 0]> m))
               = calc_engagement_rate E (PyDict m))
  /\ (forall likes comments,
         m !! "viewCount" = None ->
         counter E (PyDict m) "likeCount" = Ok likes ->
         counter E (PyDict m) "commentCount" = Ok comments ->
         calc_engagement_rate E (PyDict m) = Ok (PyInt 0)).
Proof.
  split.
  - intros key H. rewrite !calc_engagement_rate_unfold.
    now rewrite !(counter_insert_zero E m key _ H).
  - intros likes comments Hv Hl Hc.
    rewrite calc_engagement_rate_unfold, (counter_absent E m _ Hv), Hl, Hc.
    reflexivity.
Qed.

Lemma calc_engagement_rate_absent_witness :
  calc_engagement_rate Demo.E (PyDict ∅) = Ok (PyInt 0).
Proof.
  apply (proj2 (calc_engagement_rate_absent Demo.E ∅) 0 0); reflexivity.
Defined.

Lemma derived_rate_nonneg (views likes comments : Z) (v : pyval) :
  0 <= likes -> 0 <= comments ->
  Streamlit0.engagement_rate views likes comments = Ok v ->
  exists q, number_of v = Some q /\ (0 <= q)%Q.
Proof.
  intros Hl Hc Hr. destruct (Z.ltb_spec 0 views) as [Hv|Hv].
  - destruct (proj1 (rate_ok_derived _ _ _ _ Hr) Hv) as (q & -> & Hq).
    exists q. split; [reflexivity|]. rewrite Hq.
    apply Qle_shift_div_l.
    + change 0%Q with (inject_Z 0). now rewrite <- Zlt_Qlt.
    + rewrite Qmult_0_l. change 0%Q with (inject_Z 0). rewrite <- Zle_Qle. lia.
  - rewrite rate_zero in Hr by exact Hv. injection Hr as <-.
    exists 0%Q. split; [reflexivity | apply Qle_refl].
Qed.

(** X5. With non-negative like and comment counters, every engagement rate
    the two calculators return is a non-negative number; a zero or negative
    view counter gives 0, and with [views > 0] a rate is returned whenever
    the quotient is within the float range. *)
Theorem engagement_rate_nonneg (E : env) (stats : pyval)
        (views likes comments : Z) :
  counter E stats "viewCount" = Ok views ->
  counter E stats "likeCount" = Ok likes ->
  counter E stats "commentCount" = Ok comments ->
  0 <= likes -> 0 <= comments ->
  (forall v, calc_engagement_rate E stats = Ok v ->
             exists q, number_of v = Some q /\ (0 <= q)%Q)
  /\ (forall v, Streamlit0.engagement_rate views likes comments = Ok v ->
                exists q, number_of v = Some q /\ (0 <= q)%Q)
  /\ (views <= 0 -> calc_engagement_rate E stats = Ok (PyInt 0))
  /\ (0 < views -> float_overflow (likes + comments) views = false ->
      exists v q, calc_engagement_rate E stats = Ok v
                  /\ number_of v = Some q /\ (0 <= q)%Q).
Proof.
  intros Hv Hl Hc Hlikes Hcomments.
  rewrite (calc_engagement_rate_counters E stats _ _ _ Hv Hl Hc).
  split; [|split; [|split]].
  - intros v. now apply derived_rate_nonneg.
  - intros v. now apply derived_rate_nonneg.
  - apply rate_zero.
  - intros Hpos Hr. destruct (rate_in_range _ _ _ Hpos Hr) as (q & Hq & _).
    destruct (derived_rate_nonneg views likes comments (PyFloat q)
                Hlikes Hcomments Hq) as (q' & Hq' & Hpos').
    now exists (PyFloat q), q'.
Qed.

Lemma engagement_rate_nonneg_witness :
  exists v q, calc_engagement_rate Demo.E Demo.statistics = Ok v
              /\ number_of v = Some q /\ (0 <= q)%Q.
Proof.
  destruct (engagement_rate_nonneg Demo.E Demo.statistics 1000 100 50
              ltac:(vm_compute; reflexivity) ltac:(vm_compute; reflexivity)
              ltac:(vm_compute; reflexivity) ltac:(lia) ltac:(lia))
    as (_ & _ & _ & H).
  apply H; [lia | vm_compute; reflexivity].
Defined.

(** ** The remote lookup: schema, missing sections, the channel query *)

Lemma video_stats_body_unfold (E : env) (video_id : string) :
  video_stats_body E video_id =
  (_ ← build E;
   video_response ← videos_list E video_id;
   items ← get video_response "items" PyNone;
   if negb (truthy items) then mret None else
   items' ← getitem video_response "items";
   video ← item0 items';
   video_record E video).
Proof. reflexivity. Qed.

Lemma item0_truthy (items video : pyval) :
  item0 items = Ok video -> truthy items = true.
Proof.
  destruct items as [| | | |s|l|d]; try discriminate.
  - destruct s; [discriminate | reflexivity].
  - destruct l; [discriminate | reflexivity].
Qed.

Lemma getitem_get (d : pyval) (key : string) (v dflt : pyval) :
  getitem d key = Ok v -> get d key dflt = Ok v.
Proof.
  destruct d as [| | | | | |m]; try discriminate. cbn.
  destruct (m !! key); [now intros [= ->] | discriminate].
Qed.

(** Once the client is built and the response has a first item, the lookup
    is the record built from that item. *)
Lemma video_stats_body_first (E : env) (video_id : string) (video : pyval) :
  build E = Ok tt -> first_video E video_id = Ok video ->
  video_stats_body E video_id = video_record E video.
Proof.
  intros Hbuild Hfirst. unfold first_video in Hfirst.
  bind_inv Hfirst. rename a into response, Ha into Hresp.
  bind_inv Hfirst. rename a into items, Ha into Hitems.
  rewrite video_stats_body_unfold, Hbuild, Hresp. cbn.
  rewrite (getitem_get _ _ _ PyNone Hitems). cbn.
  rewrite (item0_truthy _ _ Hfirst). cbn.
  rewrite Hitems. cbn. now rewrite Hfirst.
Qed.

Lemma get_video_stats_of_body (E : env) (video_id : string) :
  get_video_stats E video_id =
  match video_stats_body E video_id with
  | Ok data => (data, [])
  | Raise e => (None, [ErrApi e])
  end.
Proof. reflexivity. Qed.

Lemma fetched_dom (a b c d e f g h i j : pyval) :
  dom (<["views" := a]> (
       <["likes" := b]> (
       <["comments" := c]> (
       <["watch_time_minutes" := d]> (
       <["video_length_minutes" := e]> (
       <["engagement_rate" := f]> (
       <["subscribers" := g]> (
       <["category" := h]> (
       <["country" := i]> (
       <["device" := j]> (∅ : gmap string pyval))))))))))) = feature_columns.
Proof.
  rewrite !dom_insert_L, dom_empty_L. unfold feature_columns. set_solver.
Qed.

Lemma parse_duration_number (E : env) (d : pyval) :
  exists q, number_of (parse_duration E d) = Some q.
Proof.
  unfold parse_duration. destruct (iso_parse_duration E d); eexists; reflexivity.
Qed.

Lemma calc_engagement_rate_number (E : env) (stats v : pyval) :
  calc_engagement_rate E stats = Ok v -> exists q, number_of v = Some q.
Proof.
  rewrite calc_engagement_rate_unfold. intros H.
  bind_inv H. bind_inv H. bind_inv H.
  unfold Streamlit0.engagement_rate in H.
  destruct (0 <? a); [|injection H as <-; eexists; reflexivity].
  bind_inv H. injection H as <-. eexists; reflexivity.
Qed.

(** X6. Every record the lookup returns has exactly the ten columns of the
    model's row; its five counters are integers, the video length and the
    engagement rate are numbers, and the device is ["Mobile"]. *)
Theorem get_video_stats_schema (E : env) (video_id : string)
        (d : gmap string pyval) :
  fst (get_video_stats E video_id) = Some d ->
  dom d = feature_columns
  /\ (exists views likes comments watch subscribers,
         d !! "views" = Some (PyInt views)
         /\ d !! "likes" = Some (PyInt likes)
         /\ d !! "comments" = Some (PyInt comments)
         /\ d !! "watch_time_minutes" = Some (PyInt watch)
         /\ d !! "subscribers" = Some (PyInt subscribers))
  /\ (exists length rate ql qr,
         d !! "video_length_minutes" = Some length
         /\ number_of length = Some ql
         /\ d !! "engagement_rate" = Some rate
         /\ number_of rate = Some qr)
  /\ d !! "device" = Some (PyStr "Mobile")
  /\ snd (get_video_stats E video_id) = [].
Proof.
  intros H. pose proof (get_video_stats_some E video_id d H) as Hbody.
  apply video_stats_body_inv in Hbody
    as (response & items & video & stats & snippet & details & duration & channel_id
        & subscribers & country & views & likes & comments & engagement & category
        & _ & _ & _ & _ & _ & _ & _ & _ & _ & _ & _ & _ & _ & _ & Hrate & _ & ->).
  split; [apply fetched_dom|]. split.
  { exists views, likes, comments, (views * 5), subscribers.
    repeat split; reflexivity. }
  split.
  { destruct (parse_duration_number E duration) as (ql & Hql).
    destruct (calc_engagement_rate_number E stats engagement Hrate) as (qr & Hqr).
    exists (parse_duration E duration), engagement, ql, qr.
    repeat split; first [reflexivity | assumption]. }
  split; [reflexivity|].
  destruct (get_video_stats_shown E video_id) as [Hs | [e He]]; [exact Hs|].
  rewrite He in H. discriminate.
Qed.

Lemma get_video_stats_schema_witness :
  fst (get_video_stats Demo.E "dQw4w9WgXcQ") = Some Demo.fetched
  /\ dom Demo.fetched = feature_columns.
Proof.
  assert (fst (get_video_stats Demo.E "dQw4w9WgXcQ") = Some Demo.fetched) as Hd
    by (apply some_content; vm_compute; reflexivity).
  split; [exact Hd|].
  exact (proj1 (get_video_stats_schema Demo.E "dQw4w9WgXcQ" Demo.fetched Hd)).
Defined.

Lemma get_video_stats_raise (E : env) (video_id : string) (e : exn) :
  video_stats_body E video_id = Raise e ->
  get_video_stats E video_id = (None, [ErrApi e]).
Proof. intros H. now rewrite get_video_stats_of_body, H. Qed.

(** X7. A video item that lacks one of the sections the lookup reads makes
    it return [None] and show the [KeyError] of the first missing section,
    in the order statistics, snippet, contentDetails, duration. *)
Theorem get_video_stats_missing_section (E : env) (video_id : string)
        (v : gmap string pyval) :
  build E = Ok tt -> first_video E video_id = Ok (PyDict v) ->
  (v !! "statistics" = None ->
   get_video_stats E video_id = (None, [ErrApi (KeyError "statistics")]))
  /\ (is_Some (v !! "statistics") -> v !! "snippet" = None ->
      get_video_stats E video_id = (None, [ErrApi (KeyError "snippet")]))
  /\ (is_Some (v !! "statistics") -> is_Some (v !! "snippet") ->
      v !! "contentDetails" = None ->
      get_video_stats E video_id = (None, [ErrApi (KeyError "contentDetails")]))
  /\ (forall details,
         is_Some (v !! "statistics") -> is_Some (v !! "snippet") ->
         v !! "contentDetails" = Some (PyDict details) ->
         details !! "duration" = None ->
         get_video_stats E video_id = (None, [ErrApi (KeyError "duration")])).
Proof.
  intros Hbuild Hfirst.
  pose proof (video_stats_body_first E video_id _ Hbuild Hfirst) as Hbody.
  unfold video_record in Hbody. cbn in Hbody.
  split; [|split; [|split]].
  - intros Hs. apply get_video_stats_raise. rewrite Hbody, Hs. reflexivity.
  - intros [s Hs] Hn. apply get_video_stats_raise.
    rewrite Hbody, Hs. cbn. rewrite Hn. reflexivity.
  - intros [s Hs] [n Hn] Hc. apply get_video_stats_raise.
    rewrite Hbody, Hs. cbn. rewrite Hn. cbn. rewrite Hc. reflexivity.
  - intros details [s Hs] [n Hn] Hc Hd. apply get_video_stats_raise.
    rewrite Hbody, Hs. cbn. rewrite Hn. cbn. rewrite Hc. cbn. rewrite Hd.
    reflexivity.
Qed.

Lemma channel_info_none (E : env) (cid : pyval) :
  truthy cid = false -> channel_info E cid = Ok (0, PyStr "US").
Proof. intros H. unfold channel_info. now rewrite H. Qed.

Lemma no_channel_falsy (sn : gmap string pyval) :
  no_channel sn ->
  truthy (match sn !! "channelId" with Some v => v | None => PyNone end) = false.
Proof. unfold no_channel. destruct (sn !! "channelId"); [auto | reflexivity]. Qed.

Lemma video_record_no_channel (E : env) (service : pyval -> result pyval)
      (video : pyval) (sn : gmap string pyval) :
  getitem video "snippet" = Ok (PyDict sn) -> no_channel sn ->
  video_record (with_channels E service) video = video_record E video.
Proof.
  intros Hsn Hno. apply no_channel_falsy in Hno. unfold video_record.
  destruct (getitem video "statistics") as [stats|]; [|reflexivity]. cbn.
  rewrite Hsn. cbn.
  destruct (getitem video "contentDetails") as [details|]; [|reflexivity]. cbn.
  destruct (getitem details "duration") as [duration|]; [|reflexivity]. cbn.
  rewrite !(channel_info_none _ _ Hno). reflexivity.
Qed.

(** X8. A video whose snippet names no channel is looked up without the
    channel service: the result is the same whatever that service would
    answer, and a returned record has 0 subscribers and country ["US"]. *)
Theorem get_video_stats_no_channel (E : env) (video_id : string)
        (video : pyval) (sn : gmap string pyval) :
  build E = Ok tt -> first_video E video_id = Ok video ->
  getitem video "snippet" = Ok (PyDict sn) -> no_channel sn ->
  (forall service,
      get_video_stats (with_channels E service) video_id
      = get_video_stats E video_id)
  /\ (forall d, fst (get_video_stats E video_id) = Some d ->
                d !! "subscribers" = Some (PyInt 0)
                /\ d !! "country" = Some (PyStr "US")).
Proof.
  intros Hbuild Hfirst Hsn Hno. split.
  - intros service. rewrite !get_video_stats_of_body.
    rewrite (video_stats_body_first E video_id video Hbuild Hfirst).
    rewrite (video_stats_body_first (with_channels E service) video_id video
               Hbuild Hfirst).
    now rewrite (video_record_no_channel E service video sn Hsn Hno).
  - intros d Hd. apply get_video_stats_some in Hd.
    rewrite (video_stats_body_first E video_id video Hbuild Hfirst) in Hd.
    unfold video_record in Hd.
    bind_inv Hd. rewrite Hsn in Hd. cbn in Hd.
    bind_inv Hd. bind_inv Hd.
    rewrite (channel_info_none E _ (no_channel_falsy sn Hno)) in Hd. cbn in Hd.
    repeat bind_inv Hd. injection Hd as <-. split; reflexivity.
Qed.

Lemma get_video_stats_missing_section_witness :
  build partial_service = Ok tt
  /\ first_video partial_service "any" = Ok (PyDict partial_sections)
  /\ get_video_stats partial_service "any"
     = (None, [ErrApi (KeyError "contentDetails")]).
Proof.
  assert (build partial_service = Ok tt) as Hb by reflexivity.
  assert (first_video partial_service "any" = Ok (PyDict partial_sections)) as Hf
    by reflexivity.
  split; [exact Hb|]. split; [exact Hf|].
  apply (proj1 (proj2 (proj2 (get_video_stats_missing_section partial_service
                                "any" partial_sections Hb Hf)))).
  - eexists. vm_compute. reflexivity.
  - eexists. vm_compute. reflexivity.
  - vm_compute. reflexivity.
Defined.

Lemma get_video_stats_no_channel_witness :
  no_channel ∅
  /\ forall service,
       get_video_stats (with_channels Demo.E service) "bare_video1"
       = get_video_stats Demo.E "bare_video1".
Proof.
  assert (no_channel ∅) as Hno by exact I.
  split; [exact Hno|].
  apply (proj1 (get_video_stats_no_channel Demo.E "bare_video1" Demo.bare_item ∅
                  eq_refl eq_refl eq_refl Hno)).
Defined.

(** ** Selectboxes *)

Lemma nth_elem_of (options : list string) (i : nat) :
  (i < length options)%nat -> nth i options "" ∈ options.
Proof. intros H. apply list_elem_of_In, nth_In, H. Qed.

Lemma selectbox_in (options : list string) (index : nat) (choice : option nat) :
  (index < length options)%nat -> selectbox options index choice ∈ options.
Proof.
  intros H. unfold selectbox. apply nth_elem_of.
  destruct choice as [c|]; [|exact H].
  destruct (Nat.ltb_spec c (length options)); assumption.
Qed.

Lemma index_of_spec (v : pyval) (options : list string) (i : nat) :
  index_of v options = Some i ->
  (i < length options)%nat /\ v = PyStr (nth i options "").
Proof.
  revert i. induction options as [|o rest IH]; intros i H; [discriminate|].
  cbn in H. destruct v as [| | | |s| |]; try discriminate.
  destruct (String.eqb_spec s o) as [->|Hne].
  - injection H as <-. split; [simpl; lia | reflexivity].
  - destruct (index_of (PyStr s) rest) as [j|]; [|discriminate].
    injection H as <-. destruct (IH j eq_refl) as [Hlt Heq].
    split; [simpl; lia | exact Heq].
Qed.

Lemma index_of_complete (s : string) (options : list string) :
  s ∈ options -> exists i, index_of (PyStr s) options = Some i.
Proof.
  induction options as [|o rest IH]; intros H; [now apply elem_of_nil in H|].
  cbn. destruct (String.eqb_spec s o) as [->|Hne]; [now exists 0%nat|].
  apply elem_of_cons in H as [H|H]; [contradiction|].
  destruct (IH H) as [i ->]. now exists (S i).
Qed.

Lemma default_index_lt (v : pyval) (options : list string) (fallback : nat) :
  (fallback < length options)%nat ->
  (default_index v options fallback < length options)%nat.
Proof.
  intros H. unfold default_index.
  destruct (index_of v options) as [i|] eqn:Hi; [|exact H].
  now apply index_of_spec in Hi.
Qed.

(** Untouched, a selectbox shows the stored value when it is an option. *)
Lemma selectbox_keeps (s : string) (options : list string) (fallback : nat) :
  s ∈ options ->
  selectbox options (default_index (PyStr s) options fallback) None = s.
Proof.
  intros H. destruct (index_of_complete s options H) as [i Hi].
  unfold selectbox, default_index. rewrite Hi.
  apply index_of_spec in Hi as [_ [= ->]]. reflexivity.
Qed.

Lemma selectbox_falls_back (v : pyval) (options : list string) (fallback : nat) :
  index_of v options = None ->
  selectbox options (default_index v options fallback) None
  = nth fallback options "".
Proof. intros H. unfold selectbox, default_index. now rewrite H. Qed.

(** ** The customisation block *)

(** The three selections of one rendering of the block. *)
Lemma customize_spec (E : env) (ss : gmap string pyval) (f : Streamlit1.link_form)
      (d : gmap string pyval) (c0 k0 : pyval) :
  ss !! "video_stats" = Some (PyDict d) ->
  d !! "country" = Some c0 -> d !! "category" = Some k0 ->
  let country := selectbox Streamlit1.country_options
                   (default_index c0 Streamlit1.country_options 0)
                   (Streamlit1.link_country_choice f) in
  let category := selectbox Streamlit1.category_options
                    (default_index k0 Streamlit1.category_options 1)
                    (Streamlit1.link_category_choice f) in
  let device := selectbox Streamlit1.device_options 0
                  (Streamlit1.link_device_choice f) in
  let d' := <["device" := PyStr device]> (
            <["category" := PyStr category]> (
            <["country" := PyStr country]> d)) in
  Streamlit1.customize E ss f
  = Ok (<["video_stats" := PyDict d']> ss,
        ShowStats (PyDict d)
        :: (if Streamlit1.predict_button f then [Estimate (predict E d')] else [])).
Proof.
  intros Hss Hc Hk. unfold Streamlit1.customize. rewrite Hss. cbn.
  rewrite Hc, Hk. cbn. destruct (Streamlit1.predict_button f); reflexivity.
Qed.

Lemma customize_dom (d : gmap string pyval) (c k v : pyval) :
  dom d = feature_columns ->
  dom (<["device" := v]> (<["category" := k]> (<["country" := c]> d)))
  = feature_columns.
Proof.
  intros H. rewrite !dom_insert_L, H. unfold feature_columns. set_solver.
Qed.

Lemma record_has_keys (d : gmap string pyval) :
  dom d = feature_columns ->
  is_Some (d !! "country") /\ is_Some (d !! "category").
Proof.
  intros H. split; apply elem_of_dom; rewrite H; unfold feature_columns;
    set_solver.
Qed.

(** X10. Whatever record is stored and whatever the widgets report, a
    rendering of the customisation block that goes through leaves a record
    whose country, category and device are options of their selectboxes,
    keeps its other fields and its set of keys with the three written, and
    hands exactly that record to the predictor when "Predict Revenue" is
    pressed. *)
Theorem customize_selections (E : env) (ss ss' : gmap string pyval)
        (f : Streamlit1.link_form) (shown : list ui_event)
        (d : gmap string pyval) :
  ss !! "video_stats" = Some (PyDict d) ->
  Streamlit1.customize E ss f = Ok (ss', shown) ->
  exists d' c k v,
    ss' = <["video_stats" := PyDict d']> ss
    /\ d' !! "country" = Some (PyStr c) /\ c ∈ Streamlit1.country_options
    /\ d' !! "category" = Some (PyStr k) /\ k ∈ Streamlit1.category_options
    /\ d' !! "device" = Some (PyStr v) /\ v ∈ Streamlit1.device_options
    /\ (forall key, key ∉ ["country"; "category"; "device"] ->
                    d' !! key = d !! key)
    /\ shown = ShowStats (PyDict d)
               :: (if Streamlit1.predict_button f
                   then [Estimate (predict E d')] else []).
Proof.
  intros Hss H.
  assert (exists c0 k0, d !! "country" = Some c0 /\ d !! "category" = Some k0)
    as (c0 & k0 & Hc & Hk).
  { unfold Streamlit1.customize in H. rewrite Hss in H. cbn in H.
    destruct (d !! "country") as [c0|]; [|discriminate]. cbn in H.
    destruct (d !! "category") as [k0|]; [|discriminate]. eauto. }
  rewrite (customize_spec E ss f d c0 k0 Hss Hc Hk) in H.
  injection H as <- <-. do 4 eexists.
  split; [reflexivity|].
  split; [now rewrite !lookup_insert_ne, lookup_insert_eq by discriminate|].
  split; [apply selectbox_in, default_index_lt; simpl; lia|].
  split; [now rewrite lookup_insert_ne, lookup_insert_eq by discriminate|].
  split; [apply selectbox_in, default_index_lt; simpl; lia|].
  split; [apply lookup_insert_eq|]. split; [apply selectbox_in; simpl; lia|].
  split; [|reflexivity].
  intros key Hkey. rewrite !lookup_insert_ne; [reflexivity | set_solver..].
Qed.

Lemma customize_selections_witness :
  exists ss' shown,
    Streamlit1.customize Demo.E Demo.session Demo.press_predict = Ok (ss', shown)
    /\ exists d' c, ss' = <["video_stats" := PyDict d']> Demo.session
                    /\ d' !! "country" = Some (PyStr c)
                    /\ c ∈ Streamlit1.country_options.
Proof.
  assert (Demo.session !! "video_stats" = Some (PyDict Demo.stored)) as Hss
    by apply lookup_insert_eq.
  assert (Demo.stored !! "country" = Some (PyStr "IN")) as Hc
    by (vm_compute; reflexivity).
  assert (Demo.stored !! "category" = Some (PyStr "Gaming")) as Hk
    by apply lookup_insert_eq.
  pose proof (customize_spec Demo.E Demo.session Demo.press_predict Demo.stored
                _ _ Hss Hc Hk) as Hrun.
  cbv zeta in Hrun. do 2 eexists. split; [exact Hrun|].
  destruct (customize_selections Demo.E Demo.session _ Demo.press_predict _
              Demo.stored Hss Hrun) as (d' & c & k & v & H1 & H2 & H3 & _).
  exists d', c. auto.
Defined.

Lemma selectbox_stable (options : list string) (index fallback : nat)
      (choice : option nat) :
  (index < length options)%nat ->
  selectbox options
    (default_index (PyStr (selectbox options index choice)) options fallback)
    choice
  = selectbox options index choice.
Proof.
  intros Hidx. unfold selectbox at 1 3.
  destruct choice as [c|].
  - destruct (Nat.ltb_spec c (length options)) as [Hc|Hc]; [reflexivity|].
    pose proof (selectbox_keeps (nth index options "") options fallback
                  (nth_elem_of options index Hidx)) as H.
    unfold selectbox in H at 1. unfold selectbox.
    destruct (Nat.ltb_spec c (length options)); [lia | exact H].
  - pose proof (selectbox_keeps (nth index options "") options fallback
                  (nth_elem_of options index Hidx)) as H.
    unfold selectbox in H at 1. unfold selectbox. exact H.
Qed.

(** X11. Rendering the customisation block again with the same widget
    values changes nothing: the state after the first rendering is a fixed
    point, and the same record goes to the predictor. *)
Theorem customize_stable (E : env) (ss ss1 : gmap string pyval)
        (f : Streamlit1.link_form) (shown : list ui_event)
        (d : gmap string pyval) :
  ss !! "video_stats" = Some (PyDict d) ->
  Streamlit1.customize E ss f = Ok (ss1, shown) ->
  exists d1,
    ss1 !! "video_stats" = Some (PyDict d1)
    /\ Streamlit1.customize E ss1 f
       = Ok (ss1, ShowStats (PyDict d1)
                  :: (if Streamlit1.predict_button f
                      then [Estimate (predict E d1)] else [])).
Proof.
  intros Hss H.
  assert (exists c0 k0, d !! "country" = Some c0 /\ d !! "category" = Some k0)
    as (c0 & k0 & Hc & Hk).
  { unfold Streamlit1.customize in H. rewrite Hss in H. cbn in H.
    destruct (d !! "country") as [c0|]; [|discriminate]. cbn in H.
    destruct (d !! "category") as [k0|]; [|discriminate]. eauto. }
  rewrite (customize_spec E ss f d c0 k0 Hss Hc Hk) in H. cbv zeta in H.
  injection H as <- _.
  set (country := selectbox Streamlit1.country_options
                    (default_index c0 Streamlit1.country_options 0)
                    (Streamlit1.link_country_choice f)).
  set (category := selectbox Streamlit1.category_options
                     (default_index k0 Streamlit1.category_options 1)
                     (Streamlit1.link_category_choice f)).
  set (device := selectbox Streamlit1.device_options 0
                   (Streamlit1.link_device_choice f)).
  set (d1 := <["device" := PyStr device]> (
             <["category" := PyStr category]> (
             <["country" := PyStr country]> d))).
  assert (d1 !! "country" = Some (PyStr country)) as Hc1
    by (unfold d1; now rewrite !lookup_insert_ne, lookup_insert_eq by discriminate).
  assert (d1 !! "category" = Some (PyStr category)) as Hk1
    by (unfold d1; now rewrite lookup_insert_ne, lookup_insert_eq by discriminate).
  assert (d1 !! "device" = Some (PyStr device)) as Hv1
    by (unfold d1; apply lookup_insert_eq).
  exists d1. split; [apply lookup_insert_eq|].
  rewrite (customize_spec E _ f d1 _ _ (lookup_insert_eq _ _ _) Hc1 Hk1).
  cbv zeta.
  assert (forall options index fallback choice x,
            x = selectbox options index choice ->
            (index < length options)%nat ->
            selectbox options (default_index (PyStr x) options fallback) choice
            = x) as Hstable
    by (intros options index fallback choice x ->; apply selectbox_stable).
  rewrite (Hstable _ _ 0%nat _ country eq_refl)
    by (apply default_index_lt; simpl; lia).
  rewrite (Hstable _ _ 1%nat _ category eq_refl)
    by (apply default_index_lt; simpl; lia).
  fold device.
  rewrite (insert_id d1 "country" _ Hc1), (insert_id d1 "category" _ Hk1),
    (insert_id d1 "device" _ Hv1).
  now rewrite insert_insert_eq.
Qed.

Lemma customize_stable_witness :
  exists (ss1 d1 : gmap string pyval),
    ss1 !! "video_stats" = Some (PyDict d1)
    /\ Streamlit1.customize Demo.E ss1 Demo.press_predict
       = Ok (ss1, [ShowStats (PyDict d1); Estimate (predict Demo.E d1)]).
Proof.
  assert (Demo.session !! "video_stats" = Some (PyDict Demo.stored)) as Hss
    by apply lookup_insert_eq.
  assert (Demo.stored !! "country" = Some (PyStr "IN")) as Hc
    by (vm_compute; reflexivity).
  assert (Demo.stored !! "category" = Some (PyStr "Gaming")) as Hk
    by apply lookup_insert_eq.
  pose proof (customize_spec Demo.E Demo.session Demo.press_predict Demo.stored
                _ _ Hss Hc Hk) as Hrun.
  cbv zeta in Hrun.
  destruct (customize_stable Demo.E Demo.session _ Demo.press_predict _
              Demo.stored Hss Hrun) as (d1 & H1 & H2).
  eexists. exists d1. split; [exact H1 | exact H2].
Defined.

Lemma index_of_none (v : pyval) (options : list string) :
  (forall s, v = PyStr s -> s ∉ options) -> index_of v options = None.
Proof.
  intros H. destruct (index_of v options) as [i|] eqn:Hi; [|reflexivity].
  apply index_of_spec in Hi as [Hlt Hv]. exfalso.
  apply (H _ Hv). now apply nth_elem_of.
Qed.

Lemma vocabulary_options (label : string) :
  label ∈ vocabulary -> label ∈ Streamlit1.category_options.
Proof.
  unfold vocabulary, Streamlit1.category_options.
  rewrite !elem_of_cons, !elem_of_nil. tauto.
Qed.

(** X12. With the three selectors untouched, a rendering keeps a stored
    country that is one of the six options and replaces any other by
    ["US"], keeps a stored category of the vocabulary and replaces anything
    that is not an option by ["Entertainment"], and sets the device to
    ["Mobile"] whatever was stored. *)
Theorem customize_untouched (E : env) (ss ss' : gmap string pyval)
        (f : Streamlit1.link_form) (shown : list ui_event)
        (d : gmap string pyval) :
  ss !! "video_stats" = Some (PyDict d) ->
  Streamlit1.link_country_choice f = None ->
  Streamlit1.link_category_choice f = None ->
  Streamlit1.link_device_choice f = None ->
  Streamlit1.customize E ss f = Ok (ss', shown) ->
  exists d',
    ss' !! "video_stats" = Some (PyDict d')
    /\ (forall s, d !! "country" = Some (PyStr s) ->
                  s ∈ Streamlit1.country_options ->
                  d' !! "country" = Some (PyStr s))
    /\ ((forall s, d !! "country" = Some (PyStr s) ->
                   s ∉ Streamlit1.country_options) ->
        d' !! "country" = Some (PyStr "US"))
    /\ (forall label, d !! "category" = Some (PyStr label) ->
                      label ∈ vocabulary ->
                      d' !! "category" = Some (PyStr label))
    /\ ((forall s, d !! "category" = Some (PyStr s) ->
                   s ∉ Streamlit1.category_options) ->
        d' !! "category" = Some (PyStr "Entertainment"))
    /\ d' !! "device" = Some (PyStr "Mobile").
Proof.
  intros Hss Hcc Hkc Hvc H.
  assert (exists c0 k0, d !! "country" = Some c0 /\ d !! "category" = Some k0)
    as (c0 & k0 & Hc & Hk).
  { unfold Streamlit1.customize in H. rewrite Hss in H. cbn in H.
    destruct (d !! "country") as [c0|]; [|discriminate]. cbn in H.
    destruct (d !! "category") as [k0|]; [|discriminate]. eauto. }
  rewrite (customize_spec E ss f d c0 k0 Hss Hc Hk) in H. cbv zeta in H.
  rewrite Hcc, Hkc, Hvc in H. injection H as <- _.
  eexists. split; [apply lookup_insert_eq|].
  rewrite !lookup_insert_ne, !lookup_insert_eq by discriminate.
  rewrite lookup_insert_ne, lookup_insert_eq by discriminate.
  split; [|split; [|split; [|split]]].
  - intros s Hs Hin. rewrite Hc in Hs. injection Hs as ->.
    now rewrite selectbox_keeps.
  - intros Hout. rewrite selectbox_falls_back; [reflexivity|].
    apply index_of_none. intros s ->. now apply Hout.
  - intros label Hl Hin. rewrite Hk in Hl. injection Hl as ->.
    rewrite selectbox_keeps; [reflexivity | now apply vocabulary_options].
  - intros Hout. rewrite selectbox_falls_back; [reflexivity|].
    apply index_of_none. intros s ->. now apply Hout.
  - reflexivity.
Qed.

Lemma customize_untouched_witness :
  exists (ss' d' : gmap string pyval),
    ss' !! "video_stats" = Some (PyDict d')
    /\ d' !! "device" = Some (PyStr "Mobile").
Proof.
  assert (Demo.session !! "video_stats" = Some (PyDict Demo.stored)) as Hss
    by apply lookup_insert_eq.
  assert (Demo.stored !! "country" = Some (PyStr "IN")) as Hc
    by (vm_compute; reflexivity).
  assert (Demo.stored !! "category" = Some (PyStr "Gaming")) as Hk
    by apply lookup_insert_eq.
  pose proof (customize_spec Demo.E Demo.session Demo.press_predict Demo.stored
                _ _ Hss Hc Hk) as Hrun.
  cbv zeta in Hrun.
  destruct (customize_untouched Demo.E Demo.session _ Demo.press_predict _
              Demo.stored Hss eq_refl eq_refl eq_refl Hrun)
    as (d' & H1 & _ & _ & _ & _ & H2).
  eexists. exists d'. split; [exact H1 | exact H2].
Defined.

(** ** The link handler: its three outcomes *)

Lemma truthy_dict (d : gmap string pyval) (key : string) (v : pyval) :
  d !! key = Some v -> truthy (PyDict d) = true.
Proof.
  intros H. unfold truthy. rewrite bool_decide_eq_false_2; [reflexivity|].
  intros ->. now rewrite lookup_empty in H.
Qed.

Lemma translate_category_vocabulary (code : string) :
  translate_category code ∈ vocabulary.
Proof.
  unfold translate_category.
  destruct (category_map !! code) as [label|] eqn:H.
  - exact (category_map_values code label H).
  - unfold vocabulary. rewrite !elem_of_cons. tauto.
Qed.

Lemma get_video_stats_success (E : env) (video_id : string)
      (d : gmap string pyval) :
  fst (get_video_stats E video_id) = Some d ->
  get_video_stats E video_id = (Some d, [])
  /\ dom d = feature_columns
  /\ is_Some (d !! "category").
Proof.
  intros H. pose proof (get_video_stats_some E video_id d H) as Hbody.
  split; [now rewrite get_video_stats_of_body, Hbody|].
  apply video_stats_body_inv in Hbody
    as (response & items & video & stats & snippet & details & duration & channel_id
        & subscribers & country & views & likes & comments & engagement & category
        & _ & _ & _ & _ & _ & _ & _ & _ & _ & _ & _ & _ & _ & _ & _ & _ & ->).
  split; [apply fetched_dom|].
  exists category. now rewrite !lookup_insert_ne, lookup_insert_eq by discriminate.
Qed.

(** X9. The link handler has three outcomes.  Without an identifier in the
    URL it shows "Invalid URL" and nothing else.  With an identifier and a
    failed lookup it shows the identifier first and "Could not fetch"
    last.  In both cases the session state is untouched.  With a record
    from the lookup it stores that record under ["video_stats"] with its
    category translated to a label of the vocabulary, every other field
    as fetched, and shows the identifier and the success message. *)
Theorem submit_link_handler_outcomes (E : env) (ss : gmap string pyval)
        (url : string) :
  match extract_video_id url with
  | None => Streamlit1.submit_link_handler E ss url = (ss, [ErrInvalidUrl])
  | Some video_id =>
      match fst (get_video_stats E video_id) with
      | None =>
          exists shown,
            Streamlit1.submit_link_handler E ss url = (ss, shown)
            /\ head shown = Some (InfoExtractedId video_id)
            /\ last shown = Some ErrCouldNotFetch
      | Some d =>
          exists code label,
            d !! "category" = Some code
            /\ label = translate_category (py_str E code)
            /\ label ∈ vocabulary
            /\ Streamlit1.submit_link_handler E ss url
               = (<["video_stats" := PyDict (<["category" := PyStr label]> d)]> ss,
                  [InfoExtractedId video_id; SuccessFetched])
            /\ dom (<["category" := PyStr label]> d) = feature_columns
            /\ (forall key, key <> "category" ->
                            <["category" := PyStr label]> d !! key = d !! key)
      end
  end.
Proof.
  unfold Streamlit1.submit_link_handler.
  destruct (extract_video_id url) as [video_id|] eqn:Hid; [|reflexivity].
  apply extract_video_id_inv in Hid as [Hvalid _].
  rewrite (valid_id_truthy _ Hvalid). cbn [negb].
  destruct (fst (get_video_stats E video_id)) as [d|] eqn:Hd.
  - destruct (get_video_stats_success E video_id d Hd) as (-> & Hdom & [code Hcode]).
    exists code, (translate_category (py_str E code)).
    split; [exact Hcode|]. split; [reflexivity|].
    split; [apply translate_category_vocabulary|].
    rewrite (truthy_dict d _ _ Hcode), Hcode. split; [reflexivity|]. split.
    + rewrite dom_insert_L, Hdom. unfold feature_columns. set_solver.
    + intros key Hkey. now rewrite lookup_insert_ne.
  - destruct (get_video_stats_shown E video_id) as [Hshown | [e Hshown]].
    + destruct (get_video_stats E video_id) as [stats shown]. simpl in *. subst.
      eexists. repeat split.
    + rewrite Hshown. eexists. repeat split.
Qed.

(** ** The session over successive runs *)

Lemma session_ok_columns (ss : gmap string pyval) :
  session_ok ss -> session_columns ss.
Proof.
  unfold session_ok, session_columns.
  destruct (ss !! "video_stats") as [stats|]; [|auto].
  intros (d & -> & Hdom & _). eauto.
Qed.

Lemma submit_link_handler_columns (E : env) (ss : gmap string pyval)
      (url : string) :
  session_columns ss ->
  session_columns (fst (Streamlit1.submit_link_handler E ss url)).
Proof.
  intros Hss. unfold Streamlit1.submit_link_handler.
  destruct (extract_video_id url) as [video_id|]; [|exact Hss].
  destruct (negb (truthy (PyStr video_id))); [exact Hss|].
  destruct (get_video_stats E video_id) as [[d|] shown] eqn:Hg; [|exact Hss].
  destruct (truthy (PyDict d)); [|exact Hss].
  cbn. unfold session_columns. rewrite lookup_insert_eq.
  eexists. split; [reflexivity|].
  destruct (get_video_stats_success E video_id d) as (_ & Hdom & _);
    [now rewrite Hg|].
  rewrite dom_insert_L, Hdom. unfold feature_columns. set_solver.
Qed.

Lemma customized_record_ok (d : gmap string pyval) (c k v : string) :
  dom d = feature_columns ->
  c ∈ Streamlit1.country_options -> k ∈ Streamlit1.category_options ->
  v ∈ Streamlit1.device_options ->
  record_ok (<["device" := PyStr v]> (
             <["category" := PyStr k]> (
             <["country" := PyStr c]> d))).
Proof.
  intros Hdom Hc Hk Hv. split; [now apply customize_dom|]. split; [|split].
  - exists c. now rewrite !lookup_insert_ne, lookup_insert_eq by discriminate.
  - exists k. now rewrite lookup_insert_ne, lookup_insert_eq by discriminate.
  - exists v. now rewrite lookup_insert_eq.
Qed.

Lemma customize_ok (E : env) (ss : gmap string pyval) (f : Streamlit1.link_form) :
  session_columns ss ->
  exists ss' shown,
    Streamlit1.customize E ss f = Ok (ss', shown) /\ session_ok ss'.
Proof.
  intros Hss. unfold session_columns in Hss.
  destruct (ss !! "video_stats") as [stats|] eqn:Hstats.
  - destruct Hss as (d & -> & Hdom).
    destruct (record_has_keys d Hdom) as [[c0 Hc] [k0 Hk]].
    pose proof (customize_spec E ss f d c0 k0 Hstats Hc Hk) as Hrun.
    cbv zeta in Hrun. do 2 eexists. split; [exact Hrun|].
    unfold session_ok. rewrite lookup_insert_eq.
    eexists. split; [reflexivity|].
    apply customized_record_ok; [exact Hdom | ..];
      apply selectbox_in; try apply default_index_lt; simpl; lia.
  - exists ss, []. unfold Streamlit1.customize. rewrite Hstats.
    split; [reflexivity|]. unfold session_ok. now rewrite Hstats.
Qed.

Lemma run_ok (E : env) (ss : gmap string pyval) (i : Streamlit1.run_input) :
  session_ok ss ->
  exists ss' shown, Streamlit1.run E ss i = Ok (ss', shown) /\ session_ok ss'.
Proof.
  intros Hss. destruct i as [f|f].
  - exists ss, (Streamlit1.manual_mode E f). split; [reflexivity | exact Hss].
  - cbn [Streamlit1.run]. unfold Streamlit1.link_mode.
    assert (session_columns
              (fst (if Streamlit1.submit_link f
                    then Streamlit1.submit_link_handler E ss (Streamlit1.url f)
                    else (ss, [])))) as Hcols.
    { destruct (Streamlit1.submit_link f).
      - now apply submit_link_handler_columns, session_ok_columns.
      - now apply session_ok_columns. }
    destruct (if Streamlit1.submit_link f then _ else _) as [ss1 shown1].
    destruct (customize_ok E ss1 f Hcols) as (ss2 & shown2 & Hrun & Hok).
    rewrite Hrun. cbn. eauto.
Qed.

Lemma reruns_ok (E : env) (inputs : list Streamlit1.run_input) :
  forall ss, session_ok ss ->
  exists ss' shown, reruns E ss inputs = Ok (ss', shown) /\ session_ok ss'.
Proof.
  induction inputs as [|i rest IH]; intros ss Hss.
  - exists ss, []. split; [reflexivity | exact Hss].
  - destruct (run_ok E ss i Hss) as (ss1 & shown1 & Hrun & Hok1).
    destruct (IH ss1 Hok1) as (ss2 & shown2 & Hrest & Hok2).
    cbn [reruns]. rewrite Hrun. cbn. rewrite Hrest. cbn. eauto.
Qed.

(** X13. A session that starts empty never crashes: whatever the operator
    does over any number of runs, in either mode, every run goes through,
    and after each run the session holds no record or a record with
    exactly the ten columns of the model's row whose country, category and
    device are options of their selectboxes. *)
Theorem session_never_crashes (E : env) (inputs : list Streamlit1.run_input) :
  exists ss shown, reruns E ∅ inputs = Ok (ss, shown) /\ session_ok ss.
Proof. apply reruns_ok. unfold session_ok. now rewrite lookup_empty. Qed.

(** ** The rows of the manual forms *)

Lemma record0_dom (a b c d e f g h i j : pyval) :
  dom (<["views" := a]> (
       <["likes" := b]> (
       <["comments" := c]> (
       <["watch_time_minutes" := d]> (
       <["video_length_minutes" := e]> (
       <["subscribers" := f]> (
       <["category" := g]> (
       <["device" := h]> (
       <["country" := i]> (
       <["engagement_rate" := j]> (∅ : gmap string pyval))))))))))) = feature_columns.
Proof.
  rewrite !dom_insert_L, dom_empty_L. unfold feature_columns. set_solver.
Qed.

(** X14. The rows of both manual forms have exactly the ten columns the
    lookup's record has, and their category, country and device are
    always members of the vocabulary, of the six country codes and of the
    four devices, whatever the widgets report. *)
(** The first-by-default selection of a selectbox over a literal list is
    in any list that has the same members. *)
Ltac selection_in :=
  match goal with
  | |- selectbox ?l 0 ?c ∈ ?l' =>
      let H := fresh in
      assert (selectbox l 0 c ∈ l) as H by (apply selectbox_in; simpl; lia);
      revert H; generalize (selectbox l 0 c); intros x;
      unfold vocabulary, Streamlit1.country_options, Streamlit1.device_options;
      rewrite !elem_of_cons, !elem_of_nil; tauto
  end.

Theorem manual_rows_schema :
  (forall f : Streamlit1.manual_form,
      dom (Streamlit1.manual_record f) = feature_columns
      /\ exists k c v,
           Streamlit1.manual_record f !! "category" = Some (PyStr k)
           /\ k ∈ vocabulary
           /\ Streamlit1.manual_record f !! "country" = Some (PyStr c)
           /\ c ∈ Streamlit1.country_options
           /\ Streamlit1.manual_record f !! "device" = Some (PyStr v)
           /\ v ∈ Streamlit1.device_options)
  /\ (forall f : Streamlit0.form,
         exists row k c v,
           Streamlit0.record f = Ok row
           /\ dom row = feature_columns
           /\ row !! "category" = Some (PyStr k) /\ k ∈ vocabulary
           /\ row !! "country" = Some (PyStr c)
           /\ c ∈ Streamlit1.country_options
           /\ row !! "device" = Some (PyStr v)
           /\ v ∈ Streamlit1.device_options).
Proof.
  split.
  - intros f. split; [apply fetched_dom|]. do 3 eexists.
    split; [reflexivity|]. split; [selection_in|].
    split; [reflexivity|]. split; [selection_in|].
    split; [reflexivity | selection_in].
  - intros f. destruct (record_rate f) as (row & rate & Hrow & _).
    unfold Streamlit0.record in *.
    destruct (Streamlit0.engagement_rate _ _ _) as [r|]; [|discriminate].
    cbn in Hrow. injection Hrow as <-. do 4 eexists.
    split; [reflexivity|]. split; [apply record0_dom|].
    split; [reflexivity|]. split; [selection_in|].
    split; [reflexivity|]. split; [selection_in|].
    split; [reflexivity | selection_in].
Qed.

(** ** A new fetch overwrites the stored record *)

Lemma submit_link_handler_stores (E : env) (ss : gmap string pyval)
      (url video_id : string) (d : gmap string pyval) :
  extract_video_id url = Some video_id ->
  fst (get_video_stats E video_id) = Some d ->
  exists code,
    d !! "category" = Some code
    /\ Streamlit1.submit_link_handler E ss url
       = (<["video_stats" :=
             PyDict (<["category" := PyStr (translate_category (py_str E code))]> d)]> ss,
          [InfoExtractedId video_id; SuccessFetched]).
Proof.
  intros Hid Hd. unfold Streamlit1.submit_link_handler. rewrite Hid.
  apply extract_video_id_inv in Hid as [Hvalid _].
  rewrite (valid_id_truthy _ Hvalid). cbn [negb].
  destruct (get_video_stats_success E video_id d Hd) as (-> & _ & [code Hcode]).
  exists code. split; [exact Hcode|].
  now rewrite (truthy_dict d _ _ Hcode), Hcode.
Qed.

(** X15. A run that fetches a record overwrites what the session held: the
    run goes through, and the record stored at its end is the same for
    every earlier session state.  It has the fetched values in all fields
    but country, category and device, and these three are options of
    their selectboxes. *)
Theorem fetch_overwrites (E : env) (f : Streamlit1.link_form)
        (video_id : string) (d : gmap string pyval) :
  Streamlit1.submit_link f = true ->
  extract_video_id (Streamlit1.url f) = Some video_id ->
  fst (get_video_stats E video_id) = Some d ->
  exists d',
    record_ok d'
    /\ (forall key, key ∉ ["country"; "category"; "device"] ->
                    d' !! key = d !! key)
    /\ forall ss, exists shown,
         Streamlit1.link_mode E ss f
         = Ok (<["video_stats" := PyDict d']> ss, shown).
Proof.
  intros Hsubmit Hid Hd.
  destruct (get_video_stats_success E video_id d Hd) as (_ & Hdom & _).
  destruct (submit_link_handler_stores E ∅ _ _ d Hid Hd) as (code & Hcode & _).
  set (d1 := <["category" := PyStr (translate_category (py_str E code))]> d).
  assert (dom d1 = feature_columns) as Hdom1
    by (unfold d1; rewrite dom_insert_L, Hdom; unfold feature_columns; set_solver).
  destruct (record_has_keys d1 Hdom1) as [[c0 Hc] [k0 Hk]].
  exists (<["device" := PyStr (selectbox Streamlit1.device_options 0
                                  (Streamlit1.link_device_choice f))]> (
          <["category" := PyStr (selectbox Streamlit1.category_options
                                   (default_index k0 Streamlit1.category_options 1)
                                   (Streamlit1.link_category_choice f))]> (
          <["country" := PyStr (selectbox Streamlit1.country_options
                                  (default_index c0 Streamlit1.country_options 0)
                                  (Streamlit1.link_country_choice f))]> d1))).
  split; [|split].
  - apply (customized_record_ok d1); [exact Hdom1 | ..];
      apply selectbox_in; try apply default_index_lt; simpl; lia.
  - intros key Hkey. rewrite !not_elem_of_cons in Hkey.
    destruct Hkey as (Hn1 & Hn2 & Hn3 & _).
    rewrite !lookup_insert_ne by congruence.
    unfold d1. now rewrite lookup_insert_ne by congruence.
  - intros ss.
    destruct (submit_link_handler_stores E ss _ _ d Hid Hd) as (code' & Hcode' & Hh).
    rewrite Hcode in Hcode'. injection Hcode' as <-. fold d1 in Hh.
    unfold Streamlit1.link_mode. rewrite Hsubmit, Hh.
    rewrite (customize_spec E _ f d1 c0 k0 (lookup_insert_eq _ _ _) Hc Hk).
    cbv zeta. cbn. rewrite insert_insert_eq. eexists. reflexivity.
Qed.

Lemma fetch_overwrites_witness :
  exists d', record_ok d'
    /\ forall ss, exists shown,
         Streamlit1.link_mode Demo.E ss
           (Streamlit1.LinkForm "https://youtu.be/dQw4w9WgXcQ" true None None None false)
         = Ok (<["video_stats" := PyDict d']> ss, shown).
Proof.
  assert (fst (get_video_stats Demo.E "dQw4w9WgXcQ") = Some Demo.fetched) as Hd
    by (apply some_content; vm_compute; reflexivity).
  assert (extract_video_id "https://youtu.be/dQw4w9WgXcQ" = Some "dQw4w9WgXcQ") as Hid
    by (vm_compute; reflexivity).
  destruct (fetch_overwrites Demo.E
              (Streamlit1.LinkForm "https://youtu.be/dQw4w9WgXcQ" true None None None false)
              "dQw4w9WgXcQ" Demo.fetched eq_refl Hid Hd) as (d' & Hok & _ & Hrun).
  exists d'. split; [exact Hok | exact Hrun].
Defined.

(** ** Text after the identifier *)

Lemma append_eq_prefix (c : string) : forall a b d,
  a ++ b = c ++ d -> (String.length c <= String.length a)%nat ->
  exists e, a = c ++ e.
Proof.
  induction c as [|x c IH]; intros a b d H Hlen.
  - exists a. reflexivity.
  - destruct a as [|y a]; [simpl in Hlen; lia|].
    rewrite !append_cons in H. injection H as -> H.
    destruct (IH a b d H) as [e ->]; [simpl in Hlen; lia|].
    exists e. reflexivity.
Qed.

Lemma id_at_append (s x t : string) :
  id_at s = Some t -> id_at (s ++ x) = Some t.
Proof.
  rewrite !id_at_occurs. intros (pre & sep & post & -> & Hpre & Hsep & Hvalid).
  exists pre, sep, (post ++ x). split; [now rewrite !append_assoc | auto].
Qed.

Lemma id_at_append_none (s x : string) :
  id_at s = None -> (13 <= String.length s)%nat -> id_at (s ++ x) = None.
Proof.
  intros Hnone Hlen. destruct (id_at (s ++ x)) as [t|] eqn:H; [|reflexivity].
  exfalso. apply id_at_occurs in H as (pre & sep & post & Heq & Hpre & Hsep & Hvalid).
  apply length_zero_empty in Hpre as ->. rewrite append_nil in Heq.
  rewrite <- append_assoc in Heq.
  destruct (append_eq_prefix (sep ++ t) s x post Heq) as [e He].
  - rewrite length_append. destruct Hvalid as [-> _].
    destruct Hsep as [-> | ->]; simpl; lia.
  - assert (id_at s = Some t) as Hs; [|congruence].
    apply id_at_occurs. exists "", sep, e.
    rewrite append_nil, <- append_assoc. auto.
Qed.

Lemma find_id_length (s t : string) :
  find_id s = Some t -> (12 <= String.length s)%nat.
Proof.
  intros H. apply find_id_leftmost in H as (i & Hocc & _).
  apply occurs_at_length in Hocc. lia.
Qed.

Lemma find_id_append (s x t : string) :
  find_id s = Some t -> find_id (s ++ x) = Some t.
Proof.
  induction s as [|c s IH]; intros H; [discriminate|].
  rewrite append_cons. cbn [find_id] in *. rewrite <- append_cons.
  destruct (id_at (String c s)) as [t0|] eqn:H0.
  - now rewrite (id_at_append _ x _ H0).
  - pose proof (find_id_length s t H) as Hlen.
    rewrite (id_at_append_none _ x H0) by (simpl; lia). now apply IH.
Qed.

(** X16. Once a URL yields an identifier, nothing appended to the URL
    changes it: query parameters, fragments or any other trailing text
    after the first match are ignored. *)
Theorem extract_video_id_ignores_tail (url tail t : string) :
  extract_video_id url = Some t -> extract_video_id (url ++ tail) = Some t.
Proof. rewrite !extract_find_id. apply find_id_append. Qed.

Lemma extract_video_id_ignores_tail_witness :
  extract_video_id ("https://youtu.be/dQw4w9WgXcQ" ++ "&list=PL1/aaaaaaaaaaa")
  = Some "dQw4w9WgXcQ".
Proof.
  apply (extract_video_id_ignores_tail "https://youtu.be/dQw4w9WgXcQ").
  vm_compute. reflexivity.
Defined.

(** ** The lookup does not depend on the duration parser *)

Lemma video_record_iso (E : env) (parser : pyval -> result Isodate.parsed)
      (video : pyval) :
  match video_record E video with
  | Ok (Some d) =>
      exists len q,
        video_record (with_iso E parser) video
        = Ok (Some (<["video_length_minutes" := len]> d))
        /\ number_of len = Some q
  | r => video_record (with_iso E parser) video = r
  end.
Proof.
  unfold video_record.
  change (channel_info (with_iso E parser)) with (channel_info E).
  change (calc_engagement_rate (with_iso E parser)) with (calc_engagement_rate E).
  change (int_of_str (with_iso E parser)) with (int_of_str E).
  destruct (getitem video "statistics") as [stats|]; [|reflexivity]. cbn.
  destruct (getitem video "snippet") as [snippet|]; [|reflexivity]. cbn.
  destruct (getitem video "contentDetails") as [details|]; [|reflexivity]. cbn.
  destruct (getitem details "duration") as [duration|]; [|reflexivity]. cbn.
  destruct (get snippet "channelId" PyNone) as [cid|]; [|reflexivity]. cbn.
  destruct (channel_info E cid) as [[subscribers country]|]; [|reflexivity]. cbn.
  destruct (get stats "viewCount" (PyInt 0)) as [vc|]; [|reflexivity]. cbn.
  destruct (int (int_of_str E) vc) as [views|]; [|reflexivity]. cbn.
  destruct (get stats "likeCount" (PyInt 0)) as [lc|]; [|reflexivity]. cbn.
  destruct (int (int_of_str E) lc) as [likes|]; [|reflexivity]. cbn.
  destruct (get stats "commentCount" (PyInt 0)) as [cc|]; [|reflexivity]. cbn.
  destruct (int (int_of_str E) cc) as [comments|]; [|reflexivity]. cbn.
  destruct (calc_engagement_rate E stats) as [engagement|]; [|reflexivity]. cbn.
  destruct (get snippet "categoryId" (PyStr "22")) as [category|]; [|reflexivity].
  cbn. destruct (parse_duration_number (with_iso E parser) duration) as [q Hq].
  exists (parse_duration (with_iso E parser) duration), q.
  split; [reflexivity | exact Hq].
Qed.

(** X17. Duration parsing cannot make the lookup fail or change anything
    else: with any other duration parser the lookup shows the same
    messages, fails in the same cases, and returns the same record up to
    its video_length_minutes, which is still a number. *)
Theorem get_video_stats_any_parser (E : env)
        (parser : pyval -> result Isodate.parsed) (video_id : string) :
  match get_video_stats E video_id with
  | (Some d, shown) =>
      exists len q,
        get_video_stats (with_iso E parser) video_id
        = (Some (<["video_length_minutes" := len]> d), shown)
        /\ number_of len = Some q
  | (None, shown) => get_video_stats (with_iso E parser) video_id = (None, shown)
  end.
Proof.
  rewrite !get_video_stats_of_body, !video_stats_body_unfold.
  change (build (with_iso E parser)) with (build E).
  change (videos_list (with_iso E parser)) with (videos_list E).
  destruct (build E) as [[]|]; [|reflexivity]. cbn.
  destruct (videos_list E video_id) as [response|]; [|reflexivity]. cbn.
  destruct (get response "items" PyNone) as [items|]; [|reflexivity]. cbn.
  destruct (truthy items); [|reflexivity]. cbn.
  destruct (getitem response "items") as [items'|]; [|reflexivity]. cbn.
  destruct (item0 items') as [video|]; [|reflexivity]. cbn.
  pose proof (video_record_iso E parser video) as H.
  destruct (video_record E video) as [[d|]|e].
  - destruct H as (len & q & -> & Hq). exists len, q. split; [reflexivity | exact Hq].
  - now rewrite H.
  - now rewrite H.
Qed.

(** ** The stored record over a run *)

Lemma write_selections_lookup (f : Streamlit1.link_form) (c0 k0 : pyval)
      (d : gmap string pyval) :
  write_selections f c0 k0 d !! "country"
  = Some (PyStr (selectbox Streamlit1.country_options
                   (default_index c0 Streamlit1.country_options 0)
                   (Streamlit1.link_country_choice f)))
  /\ write_selections f c0 k0 d !! "category"
     = Some (PyStr (selectbox Streamlit1.category_options
                      (default_index k0 Streamlit1.category_options 1)
                      (Streamlit1.link_category_choice f)))
  /\ write_selections f c0 k0 d !! "device"
     = Some (PyStr (selectbox Streamlit1.device_options 0
                      (Streamlit1.link_device_choice f)))
  /\ forall key, key ∉ ["country"; "category"; "device"] ->
                 write_selections f c0 k0 d !! key = d !! key.
Proof.
  unfold write_selections.
  split; [now rewrite !lookup_insert_ne, lookup_insert_eq by discriminate|].
  split; [now rewrite lookup_insert_ne, lookup_insert_eq by discriminate|].
  split; [apply lookup_insert_eq|].
  intros key Hkey. rewrite !not_elem_of_cons in Hkey.
  destruct Hkey as (Hn1 & Hn2 & Hn3 & _).
  now rewrite !lookup_insert_ne by congruence.
Qed.

(** A run of the link page from the state [ss1] the fetch step left, when
    that state holds the record [d1]. *)
Lemma link_mode_written (E : env) (ss ss1 ss' : gmap string pyval)
      (f : Streamlit1.link_form) (shown1 shown : list ui_event)
      (d1 : gmap string pyval) :
  (if Streamlit1.submit_link f
   then Streamlit1.submit_link_handler E ss (Streamlit1.url f)
   else (ss, [])) = (ss1, shown1) ->
  Streamlit1.predicted shown1 = false ->
  ss1 !! "video_stats" = Some (PyDict d1) ->
  Streamlit1.link_mode E ss f = Ok (ss', shown) ->
  exists c0 k0,
    d1 !! "country" = Some c0 /\ d1 !! "category" = Some k0
    /\ ss' = <["video_stats" := PyDict (write_selections f c0 k0 d1)]> ss1
    /\ (Streamlit1.predicted shown = true <-> Streamlit1.predict_button f = true)
    /\ (Streamlit1.predict_button f = true ->
        In (Estimate (predict E (write_selections f c0 k0 d1))) shown).
Proof.
  intros Hstep Hnp Hss1 H. unfold Streamlit1.link_mode in H. rewrite Hstep in H.
  bind_inv H. destruct a as [ss2 shown2]. injection H as <- <-.
  assert (exists c0 k0, d1 !! "country" = Some c0 /\ d1 !! "category" = Some k0)
    as (c0 & k0 & Hc & Hk).
  { unfold Streamlit1.customize in Ha. rewrite Hss1 in Ha. cbn in Ha.
    destruct (d1 !! "country") as [c0|]; [|discriminate]. cbn in Ha.
    destruct (d1 !! "category") as [k0|]; [|discriminate]. eauto. }
  rewrite (customize_spec E ss1 f d1 c0 k0 Hss1 Hc Hk) in Ha. cbv zeta in Ha.
  fold (write_selections f c0 k0 d1) in Ha. injection Ha as <- <-.
  exists c0, k0. split; [exact Hc|]. split; [exact Hk|]. split; [reflexivity|].
  rewrite predicted_app, Hnp.
  destruct (Streamlit1.predict_button f); split.
  - reflexivity.
  - intros _. apply in_or_app. right. right. now left.
  - split; discriminate.
  - discriminate.
Qed.

(** Without a new record the fetch step leaves the session state alone. *)
Lemma no_new_record_step (E : env) (ss : gmap string pyval)
      (f : Streamlit1.link_form) :
  no_new_record E f ->
  exists shown1,
    (if Streamlit1.submit_link f
     then Streamlit1.submit_link_handler E ss (Streamlit1.url f)
     else (ss, [])) = (ss, shown1)
    /\ Streamlit1.predicted shown1 = false.
Proof.
  unfold no_new_record. intros Hno.
  destruct (Streamlit1.submit_link f) eqn:Hsubmit;
    [|exists []; split; reflexivity].
  destruct Hno as [Hfalse | [Hnone | (video_id & Hid & Hd)]].
  - discriminate.
  - unfold Streamlit1.submit_link_handler. rewrite Hnone.
    eexists. split; reflexivity.
  - destruct (submit_link_handler_failed E ss _ _ Hid Hd) as (shown1 & Hh & _ & Hp).
    exists shown1. split; [exact Hh | exact Hp].
Qed.

(** C8, as stated, fails: nothing removes the stored record.  On the
    session that holds the record fetched for the first video, pressing
    "Predict Revenue" shows an estimate and the record is still there. *)
Lemma record_kept_after_prediction :
  ~ (forall E ss f ss' shown,
        Streamlit1.link_mode E ss f = Ok (ss', shown) ->
        Streamlit1.predicted shown = true ->
        ss' !! "video_stats" = None).
Proof.
  intros H.
  assert (Demo.session !! "video_stats" = Some (PyDict Demo.stored)) as Hss
    by apply lookup_insert_eq.
  assert (Demo.stored !! "country" = Some (PyStr "IN")) as Hc
    by (vm_compute; reflexivity).
  assert (Demo.stored !! "category" = Some (PyStr "Gaming")) as Hk
    by apply lookup_insert_eq.
  destruct (link_mode_predicts Demo.E Demo.session Demo.press_predict Demo.stored
              (PyStr "IN") (PyStr "Gaming") Hss Hc Hk eq_refl eq_refl)
    as (ss' & shown & Hrun & Hp).
  pose proof (link_mode_retains _ _ _ _ _ Hrun (or_intror Hp)) as [v Hv].
  pose proof (H _ _ _ _ _ Hrun Hp) as Hnone. congruence.
Qed.

(** C8, amended.  A fetched record is held in the session state and the
    prediction call does not discard it.  After a run that showed an
    estimate the record is still stored, and no run of the page removes a
    stored record.  A run of the link page that brings no new record (no
    fetch asked, no identifier in the URL, or a failed lookup) ends with
    the stored record carrying the country, category and device the
    selectboxes return, everything else in it as before, and the estimate
    it shows, exactly when "Predict Revenue" is pressed, is computed from
    that record.  A run with a successful fetch ends with the fetched
    record instead, labelled and with the selections written the same
    way, whatever was stored before.  Every run of the link page is one of
    these two; a run of the manual page leaves the session state as it
    was; no run changes another entry of the session state. *)
Theorem fetched_record_retained :
  (forall E ss f ss' shown,
      Streamlit1.link_mode E ss f = Ok (ss', shown) ->
      Streamlit1.predicted shown = true ->
      is_Some (ss' !! "video_stats"))
  /\ (forall E ss i ss' shown,
         Streamlit1.run E ss i = Ok (ss', shown) ->
         is_Some (ss !! "video_stats") -> is_Some (ss' !! "video_stats"))
  /\ (forall E ss f ss' shown d,
         Streamlit1.link_mode E ss f = Ok (ss', shown) ->
         no_new_record E f ->
         ss !! "video_stats" = Some (PyDict d) ->
         exists c0 k0,
           d !! "country" = Some c0 /\ d !! "category" = Some k0
           /\ ss' !! "video_stats" = Some (PyDict (write_selections f c0 k0 d))
           /\ (Streamlit1.predicted shown = true
               <-> Streamlit1.predict_button f = true)
           /\ (Streamlit1.predict_button f = true ->
               In (Estimate (predict E (write_selections f c0 k0 d))) shown))
  /\ (forall E ss f ss' shown video_id dn,
         Streamlit1.link_mode E ss f = Ok (ss', shown) ->
         Streamlit1.submit_link f = true ->
         extract_video_id (Streamlit1.url f) = Some video_id ->
         fst (get_video_stats E video_id) = Some dn ->
         exists c0 d1,
           dn !! "country" = Some c0
           /\ d1 = <["category" := PyStr (category_label E dn)]> dn
           /\ ss' !! "video_stats"
              = Some (PyDict (write_selections f c0
                                (PyStr (category_label E dn)) d1))
           /\ (Streamlit1.predicted shown = true
               <-> Streamlit1.predict_button f = true)
           /\ (Streamlit1.predict_button f = true ->
               In (Estimate (predict E (write_selections f c0
                                          (PyStr (category_label E dn)) d1)))
                  shown))
  /\ (forall E f,
         no_new_record E f
         \/ exists video_id dn,
              Streamlit1.submit_link f = true
              /\ extract_video_id (Streamlit1.url f) = Some video_id
              /\ fst (get_video_stats E video_id) = Some dn)
  /\ (forall f c0 k0 d,
         write_selections f c0 k0 d !! "country"
         = Some (PyStr (selectbox Streamlit1.country_options
                          (default_index c0 Streamlit1.country_options 0)
                          (Streamlit1.link_country_choice f)))
         /\ write_selections f c0 k0 d !! "category"
            = Some (PyStr (selectbox Streamlit1.category_options
                             (default_index k0 Streamlit1.category_options 1)
                             (Streamlit1.link_category_choice f)))
         /\ write_selections f c0 k0 d !! "device"
            = Some (PyStr (selectbox Streamlit1.device_options 0
                             (Streamlit1.link_device_choice f)))
         /\ forall key, key ∉ ["country"; "category"; "device"] ->
                        write_selections f c0 k0 d !! key = d !! key)
  /\ (forall E ss f,
         Streamlit1.run E ss (Streamlit1.ManualInput f)
         = Ok (ss, Streamlit1.manual_mode E f))
  /\ (forall E ss i ss' shown key,
         Streamlit1.run E ss i = Ok (ss', shown) ->
         key <> "video_stats" -> ss' !! key = ss !! key).
Proof.
  split; [|split; [|split; [|split; [|split; [|split; [|split]]]]]].
  - intros E ss f ss' shown Hrun Hp. eapply link_mode_retains; eauto.
  - intros E ss [f|f] ss' shown Hrun Hss.
    + injection Hrun as <- _. exact Hss.
    + eapply link_mode_retains; eauto.
  - intros E ss f ss' shown d Hrun Hno Hss.
    destruct (no_new_record_step E ss f Hno) as (shown1 & Hstep & Hnp).
    destruct (link_mode_written E ss ss ss' f shown1 shown d Hstep Hnp Hss Hrun)
      as (c0 & k0 & Hc & Hk & -> & Hp & Hest).
    exists c0, k0. split; [exact Hc|]. split; [exact Hk|].
    split; [apply lookup_insert_eq|]. split; [exact Hp | exact Hest].
  - intros E ss f ss' shown video_id dn Hrun Hsubmit Hid Hd.
    destruct (submit_link_handler_stores E ss _ _ dn Hid Hd)
      as (code & Hcode & Hh).
    assert (category_label E dn = translate_category (py_str E code)) as Hlabel
      by (unfold category_label; now rewrite Hcode).
    rewrite <- Hlabel in Hh.
    destruct (get_video_stats_success E video_id dn Hd) as (_ & Hdom & _).
    destruct (record_has_keys dn Hdom) as [[c Hc] _].
    destruct (link_mode_written E ss
                (<["video_stats" :=
                     PyDict (<["category" := PyStr (category_label E dn)]> dn)]> ss)
                ss' f [InfoExtractedId video_id; SuccessFetched] shown
                (<["category" := PyStr (category_label E dn)]> dn))
      as (c0 & k0 & Hc0 & Hk0 & -> & Hp & Hest).
    + rewrite Hsubmit. exact Hh.
    + reflexivity.
    + apply lookup_insert_eq.
    + exact Hrun.
    + rewrite lookup_insert_ne in Hc0 by discriminate.
      rewrite lookup_insert_eq in Hk0. injection Hk0 as <-.
      exists c0. eexists. split; [exact Hc0|]. split; [reflexivity|].
      split; [apply lookup_insert_eq|]. split; [exact Hp | exact Hest].
  - intros E f. unfold no_new_record.
    destruct (Streamlit1.submit_link f); [|left; now left].
    destruct (extract_video_id (Streamlit1.url f)) as [video_id|];
      [|left; right; now left].
    destruct (fst (get_video_stats E video_id)) as [dn|] eqn:Hd.
    + right. now exists video_id, dn.
    + left. right. right. now exists video_id.
  - apply write_selections_lookup.
  - reflexivity.
  - intros E ss [f|f] ss' shown key Hrun Hkey.
    + now injection Hrun as <- _.
    + eapply link_mode_other_keys; eauto.
Qed.

Lemma fetched_record_retained_witness :
  exists ss' shown,
    Streamlit1.link_mode Demo.E Demo.session Demo.press_predict = Ok (ss', shown)
    /\ exists c0 k0,
         ss' !! "video_stats"
         = Some (PyDict (write_selections Demo.press_predict c0 k0 Demo.stored))
         /\ In (Estimate (predict Demo.E
                            (write_selections Demo.press_predict c0 k0 Demo.stored)))
               shown.
Proof.
  assert (Demo.session !! "video_stats" = Some (PyDict Demo.stored)) as Hss
    by apply lookup_insert_eq.
  assert (Demo.stored !! "country" = Some (PyStr "IN")) as Hc
    by (vm_compute; reflexivity).
  assert (Demo.stored !! "category" = Some (PyStr "Gaming")) as Hk
    by apply lookup_insert_eq.
  destruct (link_mode_predicts Demo.E Demo.session Demo.press_predict Demo.stored
              (PyStr "IN") (PyStr "Gaming") Hss Hc Hk eq_refl eq_refl)
    as (ss' & shown & Hrun & Hp).
  exists ss', shown. split; [exact Hrun|].
  destruct fetched_record_retained as (_ & _ & H & _).
  destruct (H Demo.E Demo.session Demo.press_predict ss' shown Demo.stored
              Hrun (or_introl eq_refl) Hss)
    as (c0 & k0 & _ & _ & Hstored & _ & Hest).
  exists c0, k0. split; [exact Hstored | exact (Hest eq_refl)].
Defined.
